(** * chatllama.rlhf.reward: the reward model, its dataset and its trainer

    A shallow embedding of [apps/accelerate/chatllama/chatllama/rlhf/reward.py]
    and the properties of its natural-language specification.

    Python integers are [Z]; lengths and tensor shapes are [nat]; 2-D tensors
    are lists of rows together with their shape; exceptions are the [Err]
    case of [result]; the trainer's mutable state (weights, optimizer,
    scheduler, statistics, the locals of [train]) is threaded through a
    state-and-exception monad that also records a trace of the calls made to
    the external collaborators (base model, optimizer, deepspeed engine,
    accelerator, logger, checkpoint store). *)

From Stdlib Require String.
From Stdlib Require Import ZArith List Bool Arith Lia.
Import ListNotations String.StringSyntax.

Abbreviation string := String.string.
Delimit Scope string_scope with string.

Set Implicit Arguments.
Open Scope Z_scope.

(** ** Exceptions and fallible results *)

Inductive PyError : Type :=
| SequenceTooLong (len : nat) (max : Z)  (* ValueError raised by get_reward *)
| IndexError                             (* indexing out of range *)
| ZeroDivisionError                      (* x % 0, x / 0 *)
| OverflowError                          (* float(int) beyond the float range *)
| BatchSizeError                         (* DataLoader: batch_size <= 0 *)
| AttributeError                         (* attribute never set *)
| CollaboratorError (code : Z).          (* failure of the opaque base model *)

Inductive result (A : Type) : Type :=
| Ok (a : A)
| Err (e : PyError).
Arguments Ok {A} a.
Arguments Err {A} e.

Definition is_ok {A} (r : result A) : bool :=
  match r with Ok _ => true | Err _ => false end.

(** ** Tensors of rank two, as [torch.Tensor] of shape [(shape0, shape1)] *)

Record Tensor2 (A : Type) : Type := mkTensor2 {
  shape0 : nat;
  shape1 : nat;
  rows : list (list A)
}.

Definition well_shaped {A} (t : Tensor2 A) : Prop :=
  length (rows t) = shape0 t /\ Forall (fun r => length r = shape1 t) (rows t).

(** [column j rs] is [rs[:, j]] for a non-negative [j]. *)
Fixpoint column {A} (j : nat) (rs : list (list A)) : option (list A) :=
  match rs with
  | [] => Some []
  | r :: rs' =>
      match nth_error r j, column j rs' with
      | Some x, Some xs => Some (x :: xs)
      | _, _ => None
      end
  end.

(** [t[:, -1]]: the entry at the last position of every row; torch raises
    [IndexError] when dimension 1 has size 0. *)
Definition select_last {A} (t : Tensor2 A) : result (list A) :=
  match shape1 t with
  | O => Err IndexError
  | S j =>
      match column j (rows t) with
      | Some c => Ok c
      | None => Err IndexError
      end
  end.

(** ** Training statistics and the learner *)

Inductive Stat (F : Type) : Type :=
| TrainingLoss (v : F)
| ValidationLoss (v : F).
Arguments TrainingLoss {F} v.
Arguments ValidationLoss {F} v.

Definition is_training_loss {F} (s : Stat F) : bool :=
  match s with TrainingLoss _ => true | ValidationLoss _ => false end.

(** What an optimizer step may change: model weights (with their gradients),
    optimizer state, scheduler state. *)
Record Learner (W O S : Type) : Type := mkLearner {
  weights : W;
  optim : O;
  sched : S
}.

(** ** The external collaborators

    The pretrained transformer, its tokenizer, the projection head, the loss,
    the optimizer, the scheduler, the deepspeed engine, the accelerator and
    the checkpoint loader are not part of [reward.py]; they are taken as an
    interface, so that every statement below holds for all of them. *)

Class Collaborators : Type := {
  F : Type;                       (* floating-point numbers *)
  Weights : Type;
  OptState : Type;
  SchedState : Type;
  Hidden : Type;                  (* output.last_hidden_state *)
  Loss : Type;                    (* a scalar loss with its autograd graph *)
  (* self.model.forward(ids, attention_mask=mask).last_hidden_state *)
  base_model : Weights -> Tensor2 Z -> Tensor2 Z -> result Hidden;
  (* self.head *)
  head : Weights -> Hidden -> Tensor2 F;
  (* self.model.tokenizer(texts, return_tensors="pt", truncation=b,
     padding=True): input_ids and attention_mask *)
  tokenizer : bool -> list string -> Tensor2 Z * Tensor2 Z;
  (* float(n) for an int n; None is OverflowError *)
  float_of_int : Z -> option F;
  (* conversion of one score to torch.float32 *)
  as_float32 : F -> F;
  (* torch.nn.MSELoss() and loss.item() *)
  loss_function : list F -> list F -> Loss;
  item : Loss -> F;
  (* optimizer.zero_grad(), loss.backward(), accelerator.backward(loss),
     optimizer.step(), scheduler.step() *)
  zero_grad : Learner Weights OptState SchedState -> Learner Weights OptState SchedState;
  loss_backward : Loss -> Learner Weights OptState SchedState -> Learner Weights OptState SchedState;
  accelerator_backward : Loss -> Learner Weights OptState SchedState -> Learner Weights OptState SchedState;
  optimizer_step : Learner Weights OptState SchedState -> Learner Weights OptState SchedState;
  scheduler_step : Learner Weights OptState SchedState -> Learner Weights OptState SchedState;
  (* model_engine.backward(loss), model_engine.step() *)
  engine_backward : Loss -> Learner Weights OptState SchedState -> Learner Weights OptState SchedState;
  engine_step : Learner Weights OptState SchedState -> Learner Weights OptState SchedState;
  (* BaseTrainer.load_checkpoint: the resume point, and the restored
     learner and statistics *)
  load_checkpoint :
    Learner Weights OptState SchedState -> list (Stat F) ->
    (Z * Z) * Learner Weights OptState SchedState * list (Stat F)
}.

(** ** Configuration (the fields of [ConfigReward] that [reward.py] reads) *)

Record ConfigReward : Type := mkConfig {
  max_sequence_length : Z;
  batch_size : Z;
  epochs : Z;
  iteration_per_print : Z;
  checkpoint_steps : Z;
  debug : bool;
  deepspeed_enable : bool;
  accelerate_enable : bool
}.

(** ** Dataset records: [{"user_input": str, "completion": str, "score": number}] *)

Inductive Number (F : Type) : Type :=
| NInt (n : Z)
| NFloat (x : F).
Arguments NInt {F} n.
Arguments NFloat {F} x.

Record Entry (F : Type) : Type := mkEntry {
  user_input : string;
  completion : string;
  score : Number F
}.

(** Messages sent to the logger. *)
Inductive LogMsg (F : Type) : Type :=
| LogStart
| LogTrainingLoss (epoch1 epochs iteration1 n_iter : Z) (loss : F)
| LogPrediction (prediction target : list F)
| LogValidationLoss (epoch1 epochs iteration1 n_iter : Z) (loss : F)
| LogFinished.
Arguments LogStart {F}.
Arguments LogTrainingLoss {F} epoch1 epochs iteration1 n_iter loss.
Arguments LogPrediction {F} prediction target.
Arguments LogValidationLoss {F} epoch1 epochs iteration1 n_iter loss.
Arguments LogFinished {F}.

(** Calls made to the collaborators, in the order they happen. *)
Inductive Event (F : Type) : Type :=
| EvBaseModel (grad : bool)          (* self.model.forward; grad mode at the call *)
| EvDebugPrint
| EvSetupLogs
| EvLoadCheckpoint
| EvModelTrain                       (* self.model.train() *)
| EvModelEval                        (* self.model.eval() *)
| EvEngineForward                    (* self.model_engine(...) *)
| EvEngineBackward
| EvEngineStep
| EvZeroGrad
| EvLossBackward
| EvAcceleratorBackward
| EvOptimizerStep
| EvSchedulerStep
| EvLog (m : LogMsg F)
| EvSaveCheckpoint (epoch i epochs n_iter : Z)
| EvModelSave.
Arguments EvBaseModel {F} grad.
Arguments EvDebugPrint {F}.
Arguments EvSetupLogs {F}.
Arguments EvLoadCheckpoint {F}.
Arguments EvModelTrain {F}.
Arguments EvModelEval {F}.
Arguments EvEngineForward {F}.
Arguments EvEngineBackward {F}.
Arguments EvEngineStep {F}.
Arguments EvZeroGrad {F}.
Arguments EvLossBackward {F}.
Arguments EvAcceleratorBackward {F}.
Arguments EvOptimizerStep {F}.
Arguments EvSchedulerStep {F}.
Arguments EvLog {F} m.
Arguments EvSaveCheckpoint {F} epoch i epochs n_iter.
Arguments EvModelSave {F}.

Section Embedding.
Context {C : Collaborators}.

Local Abbreviation LearnerT := (Learner Weights OptState SchedState).

(** ** The trainer's mutable state *)

Record TrainerState : Type := mkState {
  learner : LearnerT;
  training_stats : list (Stat F);
  grad_enabled : bool;               (* torch.is_grad_enabled() *)
  training_mode : bool;              (* self.model.training *)
  cnt_checkpoints : Z;               (* local of train *)
  start_step : Z;                    (* local of train *)
  trace : list (Event F)
}.

Definition set_learner (l : LearnerT) (st : TrainerState) : TrainerState :=
  mkState l (training_stats st) (grad_enabled st) (training_mode st)
          (cnt_checkpoints st) (start_step st) (trace st).

Definition set_training_stats (s : list (Stat F)) (st : TrainerState) : TrainerState :=
  mkState (learner st) s (grad_enabled st) (training_mode st)
          (cnt_checkpoints st) (start_step st) (trace st).

Definition set_grad_enabled (b : bool) (st : TrainerState) : TrainerState :=
  mkState (learner st) (training_stats st) b (training_mode st)
          (cnt_checkpoints st) (start_step st) (trace st).

Definition set_training_mode (b : bool) (st : TrainerState) : TrainerState :=
  mkState (learner st) (training_stats st) (grad_enabled st) b
          (cnt_checkpoints st) (start_step st) (trace st).

Definition set_cnt_checkpoints (n : Z) (st : TrainerState) : TrainerState :=
  mkState (learner st) (training_stats st) (grad_enabled st) (training_mode st)
          n (start_step st) (trace st).

Definition set_start_step (n : Z) (st : TrainerState) : TrainerState :=
  mkState (learner st) (training_stats st) (grad_enabled st) (training_mode st)
          (cnt_checkpoints st) n (trace st).

Definition set_trace (t : list (Event F)) (st : TrainerState) : TrainerState :=
  mkState (learner st) (training_stats st) (grad_enabled st) (training_mode st)
          (cnt_checkpoints st) (start_step st) t.

(** ** State-and-exception monad

    An exception keeps the state reached when it was raised. *)

Definition M (A : Type) : Type := TrainerState -> result A * TrainerState.

Definition ret {A} (a : A) : M A := fun st => (Ok a, st).

Definition raise {A} (e : PyError) : M A := fun st => (Err e, st).

Definition bind {A B} (m : M A) (k : A -> M B) : M B :=
  fun st =>
    match m st with
    | (Ok a, st') => k a st'
    | (Err e, st') => (Err e, st')
    end.

Notation "x <- m ;; k" := (bind m (fun x => k))
  (at level 61, m at next level, right associativity).
Notation "m ;;; k" := (bind m (fun _ => k))
  (at level 61, right associativity).

Definition lift {A} (r : result A) : M A := fun st => (r, st).

Definition gets {A} (f : TrainerState -> A) : M A := fun st => (Ok (f st), st).

Definition modify (f : TrainerState -> TrainerState) : M unit :=
  fun st => (Ok tt, f st).

Definition emit (e : Event F) : M unit :=
  modify (fun st => set_trace (trace st ++ [e]) st).

(** [with torch.no_grad(): body]: gradient mode is switched off for the body
    and restored on exit, also when the body raises. *)
Definition no_grad {A} (body : M A) : M A :=
  fun st =>
    let (r, st') := body (set_grad_enabled false st) in
    (r, set_grad_enabled (grad_enabled st) st').

(** Python's [a % b] on ints. *)
Definition py_mod (a b : Z) : result Z :=
  if b =? 0 then Err ZeroDivisionError else Ok (a mod b).

(** ** RewardModel *)

(** [self.model.forward(output_sequence, attention_mask=output_sequence_mask)]:
    the call is recorded with the gradient mode in force. *)
Definition model_forward (output_sequence output_sequence_mask : Tensor2 Z) : M Hidden :=
  fun st =>
    (base_model (weights (learner st)) output_sequence output_sequence_mask,
     set_trace (trace st ++ [EvBaseModel (grad_enabled st)]) st).

Definition forward (config : ConfigReward)
    (output_sequence output_sequence_mask : Tensor2 Z) : M (Tensor2 F) :=
  output <- model_forward output_sequence output_sequence_mask ;;
  rewards <- gets (fun st => head (weights (learner st)) output) ;;
  (if debug config then emit EvDebugPrint else ret tt) ;;;
  ret rewards.

Definition get_reward (config : ConfigReward)
    (output_sequence output_sequence_mask : Tensor2 Z) : M (list F) :=
  if Z.of_nat (shape1 output_sequence) >? max_sequence_length config then
    raise (SequenceTooLong (shape1 output_sequence) (max_sequence_length config))
  else
    rewards <- forward config output_sequence output_sequence_mask ;;
    lift (select_last rewards).

(** ** RewardDataset *)

Definition rbind {A B} (r : result A) (k : A -> result B) : result B :=
  match r with
  | Ok a => k a
  | Err e => Err e
  end.

Notation "x <-? r ;; k" := (rbind r (fun x => k))
  (at level 61, r at next level, right associativity).

Fixpoint rmap {A B} (f : A -> result B) (l : list A) : result (list B) :=
  match l with
  | [] => Ok []
  | x :: l' => y <-? f x ;; ys <-? rmap f l' ;; Ok (y :: ys)
  end.

(** [l[idx]] on a Python list: negative indices count from the end. *)
Definition py_index {A} (l : list A) (idx : Z) : result A :=
  let n := Z.of_nat (length l) in
  let pos := if idx <? 0 then idx + n else idx in
  if (pos <? 0) || (n <=? pos) then Err IndexError
  else
    match nth_error l (Z.to_nat pos) with
    | Some x => Ok x
    | None => Err IndexError
    end.

(** [float(x)] for a JSON number. *)
Definition py_float (x : Number F) : result F :=
  match x with
  | NInt n =>
      match float_of_int n with
      | Some y => Ok y
      | None => Err OverflowError
      end
  | NFloat y => Ok y
  end.

(** The content of the JSON file, [self.data]. *)
Record RewardDataset : Type := mkDataset {
  data : list (Entry F)
}.

Definition __getitem__ (self : RewardDataset) (idx : Z) : result (string * F) :=
  e1 <-? py_index (data self) idx ;;
  let user_input := user_input e1 in
  e2 <-? py_index (data self) idx ;;
  let completion := completion e2 in
  e3 <-? py_index (data self) idx ;;
  score <-? py_float (score e3) ;;
  let item := (String.append user_input completion, score) in
  Ok item.

Definition __len__ (self : RewardDataset) : nat := length (data self).

(** ** DataLoader *)

(** A batch as the default collate function builds it from a list of
    [(text, score)] items: the texts and the tensor of the scores. *)
Definition Batch : Type := (list string * list F)%type.

(** Modelled from the spec: [torch.utils.data.DataLoader] is not part of
    [reward.py]. The spec's Batch Source covers the whole store once per
    traversal, in store order without shuffling, in groups of the batch size
    with a final short group. This is torch's batch sampler with
    [drop_last=False] over the sequential sampler: indices are appended to
    the current group, which is yielded when it reaches the batch size, and a
    non-empty remainder is yielded at the end. *)
Fixpoint batch_sampler (B : nat) (sampler : list nat) (batch : list nat)
  : list (list nat) :=
  match sampler with
  | [] => match batch with [] => [] | _ :: _ => [batch] end
  | idx :: rest =>
      let batch' := batch ++ [idx] in
      if (length batch' =? B)%nat then batch' :: batch_sampler B rest []
      else batch_sampler B rest batch'
  end.

Definition default_collate (items : list (string * F)) : Batch :=
  (map fst items, map snd items).

(** Fetching one batch: [collate([dataset[i] for i in indices])]. *)
Definition fetch (dataset : RewardDataset) (indices : list nat) : result Batch :=
  items <-? rmap (fun i => __getitem__ dataset (Z.of_nat i)) indices ;;
  Ok (default_collate items).

(** A data loader: its batch size and the batches one traversal yields. A
    batch is fetched when the loop asks for it, so a batch that fails to load
    raises at its own iteration, after the earlier ones were consumed. *)
Record DataLoaderT : Type := mkDataLoader {
  dl_batch_size : Z;
  dl_batches : list (result Batch)
}.

(** Modelled from the spec: [DataLoader(dataset, batch_size=B)] with torch's
    defaults (no shuffling, keep the last short batch); torch refuses a batch
    size that is not positive. *)
Definition DataLoader (dataset : RewardDataset) (B : Z) : result DataLoaderT :=
  if B <=? 0 then Err BatchSizeError
  else
    Ok (mkDataLoader B
          (map (fetch dataset)
               (batch_sampler (Z.to_nat B) (seq 0 (__len__ dataset)) []))).

(** Sizes of the batches of a traversal that loads without error. *)
Definition batch_len (b : Batch) : nat := length (fst b).

(** ** RewardTrainer *)

Record RewardTrainer : Type := mkTrainer {
  config : ConfigReward;
  validation_flag : bool;
  train_dataset : RewardDataset;
  train_dataloader : DataLoaderT;
  validation_dataloader : option DataLoaderT
}.

(** Lines 167-183 of [RewardTrainer.__init__]: the validation flag, the
    datasets and the data loaders, as they stand after line 183.
    [train_file] and [validation_file] are the contents of the JSON files,
    [validation_file] being [None] when [config.validation_dataset_path] is
    [None]. This is one block of the constructor, not the constructor: the
    lines before it build the model and the optimizer, the lines after it
    build the scheduler (which torch refuses when
    [len(train_dataset) // batch_size] is not positive) and call
    [setup_deepspeed] and [setup_accelerate] of [BaseTrainer], which are not
    in [reward.py] and may replace the training loader. Statements about
    [train] therefore take an arbitrary trainer, whose loader and batch size
    need not be the ones built here. *)
Definition create_dataloaders (config : ConfigReward) (train_file : list (Entry F))
    (validation_file : option (list (Entry F))) : result RewardTrainer :=
  let validation_flag :=
    match validation_file with Some _ => true | None => false end in
  let train_dataset := mkDataset train_file in
  train_dataloader <-? DataLoader train_dataset (batch_size config) ;;
  match validation_file with
  | Some vf =>
      let eval_dataset := mkDataset vf in
      validation_dataloader <-? DataLoader eval_dataset (batch_size config) ;;
      Ok (mkTrainer config validation_flag train_dataset train_dataloader
                    (Some validation_dataloader))
  | None =>
      Ok (mkTrainer config validation_flag train_dataset train_dataloader None)
  end.

(** *** Loops *)

(** [for i, x in enumerate(loader)], continued at index [i]: the next batch
    is fetched, then the body runs. *)
Fixpoint for_enumerate {A} (body : Z -> A -> M unit) (i : Z)
    (loader : list (result A)) : M unit :=
  match loader with
  | [] => ret tt
  | r :: rest =>
      x <- lift r ;;
      body i x ;;;
      for_enumerate body (i + 1) rest
  end.

Fixpoint for_each {A} (body : A -> M unit) (l : list A) : M unit :=
  match l with
  | [] => ret tt
  | x :: rest => body x ;;; for_each body rest
  end.

(** [range(a, b)] *)
Definition py_range (a b : Z) : list Z :=
  map (fun k => a + Z.of_nat k) (seq 0 (Z.to_nat (b - a))).

(** [int(a / b)]: true division, then truncation towards zero. *)
Definition py_int_div (a b : Z) : result Z :=
  if b =? 0 then Err ZeroDivisionError else Ok (Z.quot a b).

(** *** Calls to the collaborators *)

(** A call that acts on the learner, recorded in the trace. *)
Definition call (e : Event F) (f : LearnerT -> LearnerT) : M unit :=
  modify (fun st => set_trace (trace st ++ [e]) (set_learner (f (learner st)) st)).

(** Modelled from the spec: [BaseTrainer.append_training_stats] is not part
    of [reward.py]. The statistics are an append-only ordered log of
    per-step records, each a training loss or a validation loss. *)
Definition append_training_stats (s : Stat F) : M unit :=
  modify (fun st => set_training_stats (training_stats st ++ [s]) st).

(** [self.model_engine(ids, mask)]: the deepspeed engine runs the forward
    of the module it wraps. *)
Definition model_engine (config : ConfigReward) (ids mask : Tensor2 Z)
  : M (Tensor2 F) :=
  emit EvEngineForward ;;;
  forward config ids mask.

(** *** One training step: the body of the inner loop of [train] *)

(** Lines 256-266, the forward pass. *)
Definition forward_pass (config : ConfigReward) (ids mask : Tensor2 Z)
  : M (list F) :=
  if deepspeed_enable config then
    rewards <- model_engine config ids mask ;;
    lift (select_last rewards)
  else
    get_reward config ids mask.

(** Lines 272-285, the backward pass. *)
Definition backward_pass (config : ConfigReward) (loss : Loss) : M unit :=
  if deepspeed_enable config then
    call EvEngineBackward (engine_backward loss) ;;;
    call EvEngineStep engine_step
  else if accelerate_enable config then
    call EvZeroGrad zero_grad ;;;
    call EvAcceleratorBackward (accelerator_backward loss) ;;;
    call EvOptimizerStep optimizer_step ;;;
    call EvSchedulerStep scheduler_step
  else
    call EvZeroGrad zero_grad ;;;
    call EvLossBackward (loss_backward loss) ;;;
    call EvOptimizerStep optimizer_step ;;;
    call EvSchedulerStep scheduler_step.

(** Lines 302-307, checkpoint saving. *)
Definition checkpoints_saving (config : ConfigReward) (epoch i n_iter : Z)
  : M unit :=
  cnt <- gets cnt_checkpoints ;;
  r <- lift (py_mod cnt (checkpoint_steps config)) ;;
  if r =? 0 then
    emit (EvSaveCheckpoint epoch i (epochs config) n_iter) ;;;
    modify (set_cnt_checkpoints 1)
  else
    modify (set_cnt_checkpoints (cnt + 1)).

(** Lines 240-307: what the loop does with a batch it does not skip. *)
Definition train_step (config : ConfigReward) (n_iter epoch i : Z)
    (inputs : Batch) : M unit :=
  let input_text := fst inputs in
  let score := snd inputs in
  tok <- no_grad (ret (tokenizer true input_text, map as_float32 score)) ;;
  let input_tokens := fst tok in
  let output := snd tok in
  est_output <- forward_pass config (fst input_tokens) (snd input_tokens) ;;
  let loss := loss_function est_output output in
  append_training_stats (TrainingLoss (item loss)) ;;;
  backward_pass config loss ;;;
  r <- lift (py_mod i (iteration_per_print config)) ;;
  (if r =? 0 then
     emit (EvLog (LogTrainingLoss (epoch + 1) (epochs config) (i + 1) n_iter
                                  (item loss))) ;;;
     emit (EvLog (LogPrediction est_output score))
   else ret tt) ;;;
  checkpoints_saving config epoch i n_iter.

(** Lines 234-307: the body of the inner loop, with the resume test. *)
Definition train_iteration (config : ConfigReward) (n_iter epoch i : Z)
    (inputs : Batch) : M unit :=
  s <- gets start_step ;;
  if i <? s then ret tt
  else train_step config n_iter epoch i inputs.

(** *** Validation, lines 309-344 *)

Definition validation_step (config : ConfigReward) (n_iter epoch i : Z)
    (inputs : Batch) : M unit :=
  let text := fst inputs in
  let score := snd inputs in
  let input_tokens := tokenizer false text in
  let output := map as_float32 score in
  est_output <- get_reward config (fst input_tokens) (snd input_tokens) ;;
  let loss := loss_function est_output output in
  append_training_stats (ValidationLoss (item loss)) ;;;
  r <- lift (py_mod i (iteration_per_print config)) ;;
  if r =? 0 then
    emit (EvLog (LogValidationLoss (epoch + 1) (epochs config) (i + 1) n_iter
                                   (item loss)))
  else ret tt.

(** Lines 311-344: the validation phase of one epoch. *)
Definition validation (self : RewardTrainer) (n_iter epoch : Z) : M unit :=
  modify (fun st => set_trace (trace st ++ [EvModelEval])
                              (set_training_mode false st)) ;;;
  no_grad
    (match validation_dataloader self with
     | Some loader =>
         for_enumerate (validation_step (config self) n_iter epoch) 0
                       (dl_batches loader)
     | None => raise AttributeError
     end).

(** *** One epoch and the whole of [train] *)

Definition train_epoch (self : RewardTrainer) (n_iter epoch : Z) : M unit :=
  modify (fun st => set_trace (trace st ++ [EvModelTrain])
                              (set_training_mode true st)) ;;;
  for_enumerate (train_iteration (config self) n_iter epoch) 0
                (dl_batches (train_dataloader self)) ;;;
  (if validation_flag self then validation self n_iter epoch else ret tt) ;;;
  modify (set_start_step 0).

Definition train (self : RewardTrainer) : M unit :=
  emit (EvLog LogStart) ;;;
  emit EvSetupLogs ;;;
  let batch_size :=
    if deepspeed_enable (config self) then dl_batch_size (train_dataloader self)
    else batch_size (config self) in
  n_iter <- lift (py_int_div (Z.of_nat (__len__ (train_dataset self))) batch_size) ;;
  start <- (fun st =>
              let '(start, l, stats) :=
                load_checkpoint (learner st) (training_stats st) in
              (Ok start,
               set_trace (trace st ++ [EvLoadCheckpoint])
                         (set_training_stats stats (set_learner l st)))) ;;
  let start_epoch := fst start in
  modify (set_start_step (snd start)) ;;;
  modify (set_cnt_checkpoints 1) ;;;
  for_each (train_epoch self n_iter) (py_range start_epoch (epochs (config self))) ;;;
  emit EvModelSave ;;;
  emit (EvLog LogFinished).

End Embedding.

Notation "x <- m ;; k" := (bind m (fun x => k))
  (at level 61, m at next level, right associativity).
Notation "m ;;; k" := (bind m (fun _ => k))
  (at level 61, right associativity).
Notation "x <-? r ;; k" := (rbind r (fun x => k))
  (at level 61, r at next level, right associativity).

(** * Vocabulary of the specification *)

Section Vocabulary.
Context {C : Collaborators}.

(** ** Observations on traces and statistics *)

Definition is_base_model (e : Event F) : bool :=
  match e with EvBaseModel _ => true | _ => false end.

Definition is_save_checkpoint (e : Event F) : bool :=
  match e with EvSaveCheckpoint _ _ _ _ => true | _ => false end.

Definition is_model_save (e : Event F) : bool :=
  match e with EvModelSave => true | _ => false end.

(** Calls that act on weights, optimizer state or scheduler state. *)
Definition is_learner_call (e : Event F) : bool :=
  match e with
  | EvZeroGrad | EvLossBackward | EvAcceleratorBackward | EvOptimizerStep
  | EvSchedulerStep | EvEngineBackward | EvEngineStep => true
  | _ => false
  end.

(** Events a validation pass may produce: switching to evaluation mode,
    forward computations without gradients, log lines. *)
Definition validation_event (e : Event F) : Prop :=
  match e with
  | EvModelEval | EvDebugPrint | EvLog _ => True
  | EvBaseModel g => g = false
  | _ => False
  end.

(** Number of training batches recorded in the statistics, and number of
    checkpoints recorded in the trace. *)
Definition processed (st : TrainerState) : Z :=
  Z.of_nat (length (filter is_training_loss (training_stats st))).

Definition saved (st : TrainerState) : Z :=
  Z.of_nat (length (filter is_save_checkpoint (trace st))).

(** The value [get_reward] computes from given weights (it is what the
    monadic [get_reward] returns: lemma [get_reward_run]). *)
Definition reward_value (config : ConfigReward) (l : Learner Weights OptState SchedState)
    (ids mask : Tensor2 Z) : result (list F) :=
  if Z.of_nat (shape1 ids) >? max_sequence_length config then
    Err (SequenceTooLong (shape1 ids) (max_sequence_length config))
  else
    h <-? base_model (weights l) ids mask ;;
    select_last (head (weights l) h).

(** ** What the forward computations record and return

    Closed forms of the trace and of the result of [forward], [get_reward]
    and the forward pass of a training step; the lemmas [forward_run],
    [get_reward_run] and [forward_pass_run] prove that the code computes
    them. *)

(** Events of one call of [forward] in gradient mode [g], given the outcome
    of the base model. *)
Definition forward_events (config : ConfigReward) (g : bool)
    (r : result Hidden) : list (Event F) :=
  EvBaseModel g ::
  match r with
  | Ok _ => if debug config then [EvDebugPrint] else []
  | Err _ => []
  end.

Definition get_reward_events (config : ConfigReward) (g : bool) (w : Weights)
    (ids mask : Tensor2 Z) : list (Event F) :=
  if Z.of_nat (shape1 ids) >? max_sequence_length config then []
  else forward_events config g (base_model w ids mask).

(** The engine's forward at the last position: no test on the length. *)
Definition engine_value (l : Learner Weights OptState SchedState)
    (ids mask : Tensor2 Z) : result (list F) :=
  h <-? base_model (weights l) ids mask ;;
  select_last (head (weights l) h).

Definition forward_pass_value (config : ConfigReward)
    (l : Learner Weights OptState SchedState) (ids mask : Tensor2 Z)
  : result (list F) :=
  if deepspeed_enable config then engine_value l ids mask
  else reward_value config l ids mask.

Definition forward_pass_events (config : ConfigReward) (g : bool) (w : Weights)
    (ids mask : Tensor2 Z) : list (Event F) :=
  if deepspeed_enable config then
    EvEngineForward :: forward_events config g (base_model w ids mask)
  else get_reward_events config g w ids mask.

(** Progress lines of a training step and of a validation step. *)
Definition train_log (config : ConfigReward) (n_iter epoch i : Z)
    (est_output score : list F) (loss : Loss) : list (Event F) :=
  if i mod iteration_per_print config =? 0 then
    [EvLog (LogTrainingLoss (epoch + 1) (epochs config) (i + 1) n_iter (item loss));
     EvLog (LogPrediction est_output score)]
  else [].

Definition validation_log (config : ConfigReward) (n_iter epoch i : Z)
    (loss : Loss) : list (Event F) :=
  if i mod iteration_per_print config =? 0 then
    [EvLog (LogValidationLoss (epoch + 1) (epochs config) (i + 1) n_iter (item loss))]
  else [].

(** ** Validation and checkpoint cadence *)

(** What validation must leave alone: weights, optimizer and scheduler
    state, the checkpoint counter, the skip counter, the gradient mode. *)
Definition untouched (st st' : TrainerState) : Prop :=
  learner st' = learner st /\
  cnt_checkpoints st' = cnt_checkpoints st /\
  start_step st' = start_step st /\
  grad_enabled st' = grad_enabled st.

(** A validation batch that loads and on which [get_reward] has a value. *)
Definition validation_batch_ok (config : ConfigReward)
    (l : Learner Weights OptState SchedState) (rb : result Batch) : Prop :=
  match rb with
  | Ok b =>
      is_ok (reward_value config l (fst (tokenizer false (fst b)))
                          (snd (tokenizer false (fst b)))) = true
  | Err _ => False
  end.

Definition model_saves (st : TrainerState) : Z :=
  Z.of_nat (length (filter is_model_save (trace st))).

(** The checkpoint counter after [processed st - p0] batches of a run that
    started with [p0] recorded batches and [s0] recorded checkpoints, for a
    cadence of [N]. *)
Definition cadence (N p0 s0 : Z) (st : TrainerState) : Prop :=
  cnt_checkpoints st = (processed st - p0) mod N + 1 /\
  saved st - s0 = (processed st - p0) / N.

(** ** The batch source (spec sections 4.2 and 4.3) *)

(** [ceil(M / B)] *)
Definition ceil_div (M B : nat) : nat := ((M + B - 1) / B)%nat.

(** The sample the store holds for an entry: text and score. *)
Definition sample_of (e : Entry F) : result (string * F) :=
  x <-? py_float (score e) ;;
  Ok (String.append (user_input e) (completion e), x).

(** All samples of the store, in store order. *)
Definition samples_of (dataset : RewardDataset) : result (list (string * F)) :=
  rmap sample_of (data dataset).

(** Size the spec gives the batch of index [j], for a store of size [M] and
    batch size [B]: [B], except for a last batch of [M mod B] when [B] does
    not divide [M]. *)
Definition batch_size_at (M B j : nat) : nat :=
  if (S j =? ceil_div M B)%nat && negb (M mod B =? 0)%nat then (M mod B)%nat
  else B.

(** ** Backend variants (spec section 4.4)

    The spec names three variants; when several flags are enabled,
    distributed-optimized wins over accelerated, which wins over plain. *)
Inductive Variant : Type :=
| Plain
| Accelerated
| DistributedOptimized.

Definition select_variant (config : ConfigReward) : Variant :=
  match deepspeed_enable config, accelerate_enable config with
  | true, _ => DistributedOptimized
  | false, true => Accelerated
  | false, false => Plain
  end.

(** The calls only one variant makes. *)
Definition variant_of_event (e : Event F) : option Variant :=
  match e with
  | EvEngineForward | EvEngineBackward | EvEngineStep => Some DistributedOptimized
  | EvAcceleratorBackward => Some Accelerated
  | EvLossBackward => Some Plain
  | _ => None
  end.

(** The spec's table of section 4.4: backward and step of each variant. *)
Definition variant_calls (v : Variant) : list (Event F) :=
  match v with
  | Plain => [EvZeroGrad; EvLossBackward; EvOptimizerStep; EvSchedulerStep]
  | Accelerated =>
      [EvZeroGrad; EvAcceleratorBackward; EvOptimizerStep; EvSchedulerStep]
  | DistributedOptimized => [EvEngineBackward; EvEngineStep]
  end.

Definition variant_update (v : Variant) (loss : Loss)
    (l : Learner Weights OptState SchedState) : Learner Weights OptState SchedState :=
  match v with
  | Plain => scheduler_step (optimizer_step (loss_backward loss (zero_grad l)))
  | Accelerated =>
      scheduler_step (optimizer_step (accelerator_backward loss (zero_grad l)))
  | DistributedOptimized => engine_step (engine_backward loss l)
  end.

(** The spec's table of section 4.4, forward: the distributed-optimized
    variant delegates the forward to the backend's engine object and takes
    its value at the last position; the other variants call [get_reward]. *)
Definition variant_forward (v : Variant) (config : ConfigReward)
    (ids mask : Tensor2 Z) : M (list F) :=
  match v with
  | DistributedOptimized =>
      rewards <- model_engine config ids mask ;;
      lift (select_last rewards)
  | Accelerated | Plain => get_reward config ids mask
  end.

(** ** Resuming (spec section 4.5)

    The batch source is iterated; the first [skip] batches are fetched and
    discarded, every later one is processed by [body]. *)
Fixpoint resume_loop {A} (body : Z -> A -> M unit) (skip : nat) (i : Z)
    (loader : list (result A)) : M unit :=
  match loader with
  | [] => ret tt
  | r :: rest =>
      x <- lift r ;;
      match skip with
      | S k => resume_loop body k (i + 1) rest
      | O => body i x ;;; resume_loop body 0 (i + 1) rest
      end
  end.

(** An epoch that discards its first [skip] batches and leaves the skip
    counter at zero. *)
Definition epoch_from (self : RewardTrainer) (n_iter : Z) (skip : nat)
    (epoch : Z) : M unit :=
  modify (fun st => set_trace (trace st ++ [EvModelTrain])
                              (set_training_mode true st)) ;;;
  resume_loop (train_step (config self) n_iter epoch) skip 0
              (dl_batches (train_dataloader self)) ;;;
  (if validation_flag self then validation self n_iter epoch else ret tt) ;;;
  modify (set_start_step 0).

(** ** Hoare triples for the monad

    [hoare P m Q E]: from a state in [P], [m] either returns [a] in a state
    satisfying [Q a], or raises in a state satisfying [E]. *)
Definition hoare {A} (P : TrainerState -> Prop) (m : M A)
    (Q : A -> TrainerState -> Prop) (E : TrainerState -> Prop) : Prop :=
  forall st, P st ->
    match m st with
    | (Ok a, st') => Q a st'
    | (Err _, st') => E st'
    end.

(** ** Whole runs *)

Definition is_validation_loss (s : Stat F) : bool :=
  match s with TrainingLoss _ => false | ValidationLoss _ => true end.

(** Number of validation batches recorded in the statistics. *)
Definition validated (st : TrainerState) : Z :=
  Z.of_nat (length (filter is_validation_loss (training_stats st))).

(** The batch size [train] divides by: the loader's under deepspeed, the
    configured one otherwise. *)
Definition effective_batch_size (self : RewardTrainer) : Z :=
  if deepspeed_enable (config self) then dl_batch_size (train_dataloader self)
  else batch_size (config self).

(** Events an epoch may produce, with validation ([vf]) or without: never a
    model save, a log set-up or a checkpoint load, and [model.eval()] only
    with validation. *)
Definition epoch_event (vf : bool) (e : Event F) : Prop :=
  match e with
  | EvModelEval => vf = true
  | EvModelSave | EvSetupLogs | EvLoadCheckpoint => False
  | _ => True
  end.

(** Records an epoch may append: validation losses only with validation. *)
Definition epoch_stat (vf : bool) (s : Stat F) : Prop :=
  match s with
  | TrainingLoss _ => True
  | ValidationLoss _ => vf = true
  end.

(** [st'] comes from [st] by appending epoch events to the trace and epoch
    records to the statistics, in the same gradient mode. *)
Definition extends (vf : bool) (st st' : TrainerState) : Prop :=
  (exists evs, trace st' = trace st ++ evs /\ Forall (epoch_event vf) evs)
  /\ (exists new, training_stats st' = training_stats st ++ new
                  /\ Forall (epoch_stat vf) new)
  /\ grad_enabled st' = grad_enabled st.

(** A computation that only extends the state, whatever its outcome. *)
Definition keeps (vf : bool) {A} (m : M A) : Prop :=
  forall st, extends vf st (snd (m st)).

(** Training batches left to a run of [epochs_run] epochs over [L] batches
    that skips the first [skip] batches of its first epoch. *)
Definition batches_to_process (L skip epochs_run : nat) : nat :=
  match epochs_run with
  | O => O
  | S k => ((L - skip) + k * L)%nat
  end.

(** The state in which [train] enters its epoch loop: logs set up, checkpoint
    loaded, skip counter and checkpoint counter initialised. *)
Definition train_start (st : TrainerState) : TrainerState :=
  mkState (snd (fst (load_checkpoint (learner st) (training_stats st))))
          (snd (load_checkpoint (learner st) (training_stats st)))
          (grad_enabled st) (training_mode st) 1
          (snd (fst (fst (load_checkpoint (learner st) (training_stats st)))))
          (trace st ++ [EvLog LogStart; EvSetupLogs; EvLoadCheckpoint]).

(** The epochs [train] runs after loading the checkpoint. *)
Definition train_epochs_list (self : RewardTrainer) (st : TrainerState) : list Z :=
  py_range (fst (fst (fst (load_checkpoint (learner st) (training_stats st)))))
           (epochs (config self)).

(** Validation batches per epoch: those of the validation loader when
    validation is configured, none otherwise. *)
Definition validation_batches (self : RewardTrainer) : nat :=
  if validation_flag self then
    match validation_dataloader self with
    | Some loader => length (dl_batches loader)
    | None => O
    end
  else O.

End Vocabulary.

(** ** A deterministic stand-in for the collaborators

    Floats are integers; a text is tokenized into the codes of its
    characters, padded with 0 to the longest text of the batch and, with
    truncation, cut at four tokens; the base model returns its input; the
    head adds the weight to every token; an optimizer or engine step adds one
    to the weights. *)
Module Stub.

Definition codes (s : string) : list Z :=
  map (fun a => Z.of_nat (Ascii.nat_of_ascii a)) (String.list_ascii_of_string s).

Definition pad (n : nat) (l : list Z) : list Z :=
  l ++ repeat 0 (n - length l).

Definition mask_of (n : nat) (l : list Z) : list Z :=
  repeat 1 (length l) ++ repeat 0 (n - length l).

Definition tokenize (truncation : bool) (texts : list string)
  : Tensor2 Z * Tensor2 Z :=
  let toks :=
    map (fun s => if truncation then firstn 4 (codes s) else codes s) texts in
  let width := fold_right Nat.max 0%nat (map (@length Z) toks) in
  (mkTensor2 (length texts) width (map (pad width) toks),
   mkTensor2 (length texts) width (map (mask_of width) toks)).

Definition mse (est target : list Z) : Z :=
  fold_right Z.add 0 (map (fun p => (fst p - snd p) * (fst p - snd p))
                          (combine est target)).

Definition step (l : Learner Z Z Z) : Learner Z Z Z :=
  mkLearner (weights l + 1) (optim l + 1) (sched l).

Definition tick (l : Learner Z Z Z) : Learner Z Z Z :=
  mkLearner (weights l) (optim l) (sched l + 1).

#[export] Instance collaborators : Collaborators := {|
  F := Z;
  Weights := Z;
  OptState := Z;
  SchedState := Z;
  Hidden := Tensor2 Z;
  Loss := Z;
  base_model := fun _ ids _ => Ok ids;
  head := fun w h =>
    mkTensor2 (shape0 h) (shape1 h) (map (map (Z.add w)) (rows h));
  tokenizer := tokenize;
  float_of_int := fun n => Some n;
  as_float32 := fun x => x;
  loss_function := mse;
  item := fun l => l;
  zero_grad := fun l => l;
  loss_backward := fun _ l => l;
  accelerator_backward := fun _ l => l;
  optimizer_step := step;
  scheduler_step := tick;
  engine_backward := fun _ l => l;
  engine_step := fun l => tick (step l);
  load_checkpoint := fun l s => ((0, 0), l, s)
|}.

Definition initial : TrainerState :=
  mkState (mkLearner 0 0 0) [] true false 0 0 [].

Definition cfg (deepspeed accelerate : bool) : ConfigReward :=
  mkConfig 12 2 2 1 2 false deepspeed accelerate.

Definition ids (n : nat) : Tensor2 Z :=
  mkTensor2 1 n [repeat 7 n].

Definition entries : list (Entry Z) :=
  [ mkEntry "Q: 2+2?" "4" (NFloat 1);
    mkEntry "Q: 2+2?" "five" (NInt 0);
    mkEntry "a" "b" (NInt 3) ]%string.

Definition dataset : RewardDataset := mkDataset entries.

(** A trainer over [entries] for training and validation: two batches per
    epoch, two epochs. *)
Definition trainer (config : ConfigReward) : RewardTrainer :=
  match create_dataloaders config entries (Some entries) with
  | Ok t => t
  | Err _ => mkTrainer config false dataset (mkDataLoader 0 []) None
  end.

(** A trainer over [entries] without a validation dataset. *)
Definition trainer_without_validation (config : ConfigReward) : RewardTrainer :=
  match create_dataloaders config entries None with
  | Ok t => t
  | Err _ => mkTrainer config false dataset (mkDataLoader 0 []) None
  end.

(** Configurations off the usual path: a length limit of ten tokens, a
    length limit of three, no epoch to run, a progress period of zero. *)
Definition short_cfg : ConfigReward := mkConfig 10 2 2 1 2 false false false.

Definition tiny_cfg : ConfigReward := mkConfig 3 2 2 1 2 false false false.

Definition no_epoch_cfg : ConfigReward := mkConfig 12 2 0 1 2 false false false.

Definition no_print_cfg : ConfigReward := mkConfig 12 2 2 0 2 false false false.

(** One batch of one text of six characters. *)
Definition one_text : Batch := (["abcdef"%string], [1]).

End Stub.

(** * Properties *)

(** ** Reasoning about monadic code *)

Section Hoare.
Context {C : Collaborators}.

Lemma hoare_ret {A} (P : TrainerState -> Prop) (a : A) Q E :
  (forall st, P st -> Q a st) -> hoare P (ret a) Q E.
Proof. intros H st HP. simpl. auto. Qed.

Lemma hoare_lift {A} (P : TrainerState -> Prop) (r : result A) Q (E : _ -> Prop) :
  (forall a st, r = Ok a -> P st -> Q a st) ->
  (forall st, P st -> E st) ->
  hoare P (lift r) Q E.
Proof. intros H1 H2 st HP. unfold lift. destruct r; eauto. Qed.

Lemma hoare_modify (P : TrainerState -> Prop) f Q E :
  (forall st, P st -> Q tt (f st)) -> hoare P (modify f) Q E.
Proof. intros H st HP. simpl. auto. Qed.

Lemma hoare_bind {A B} P (m : M A) (k : A -> M B) Q R E :
  hoare P m Q E -> (forall a, hoare (Q a) (k a) R E) ->
  hoare P (bind m k) R E.
Proof.
  intros Hm Hk st HP. unfold bind. specialize (Hm st HP).
  destruct (m st) as [[a|e] st']; [apply Hk|]; assumption.
Qed.

Lemma hoare_if {A} (b : bool) P (m1 m2 : M A) Q E :
  (b = true -> hoare P m1 Q E) -> (b = false -> hoare P m2 Q E) ->
  hoare P (if b then m1 else m2) Q E.
Proof. destruct b; auto. Qed.

(** Unfolding a loop by one iteration. *)
Lemma for_enumerate_cons {A} (body : Z -> A -> M unit) i r rest st :
  for_enumerate body i (r :: rest) st =
    match r with
    | Err e => (Err e, st)
    | Ok x =>
        match body i x st with
        | (Ok _, st1) => for_enumerate body (i + 1) rest st1
        | (Err e, st1) => (Err e, st1)
        end
    end.
Proof. simpl. unfold bind, lift. destruct r; reflexivity. Qed.

(** A loop keeps an invariant that its body keeps. *)
Lemma hoare_for_enumerate {A} (I : TrainerState -> Prop) (E : _ -> Prop)
    (body : Z -> A -> M unit) :
  (forall st, I st -> E st) ->
  (forall i x, hoare I (body i x) (fun _ => I) E) ->
  forall loader i, hoare I (for_enumerate body i loader) (fun _ => I) E.
Proof.
  intros HIE Hbody loader. induction loader as [|r rest IH]; intros i.
  - apply hoare_ret. auto.
  - simpl. apply hoare_bind with (Q := fun _ => I).
    + apply hoare_lift; auto.
    + intros x. eapply hoare_bind; [apply Hbody|]. intros u. apply IH.
Qed.

Lemma hoare_for_each {A} (I : TrainerState -> Prop) (E : _ -> Prop)
    (body : A -> M unit) :
  (forall x, hoare I (body x) (fun _ => I) E) ->
  forall l, hoare I (for_each body l) (fun _ => I) E.
Proof.
  intros Hbody l. induction l as [|x rest IH].
  - apply hoare_ret. auto.
  - simpl. eapply hoare_bind; [apply Hbody|]. intros u. apply IH.
Qed.

End Hoare.

(** ** RewardModel *)

Section RewardModelProps.
Context {C : Collaborators}.

Lemma nth_error_last_split {A} (row : list A) j v :
  length row = S j -> nth_error row j = Some v ->
  exists pre, row = pre ++ [v].
Proof.
  intros Hlen Hnth. exists (firstn j row).
  rewrite <- (firstn_skipn j row) at 1. f_equal.
  destruct (nth_error_split row j Hnth) as (l1 & l2 & Hrow & Hl1).
  subst row. rewrite length_app in Hlen. simpl in Hlen.
  assert (Hl2 : l2 = []) by (destruct l2; [reflexivity | simpl in Hlen; lia]).
  subst l2. rewrite skipn_app, Hl1, Nat.sub_diag.
  rewrite <- Hl1, skipn_all. reflexivity.
Qed.

Lemma column_last {A} (j : nat) (rs : list (list A)) :
  Forall (fun r => length r = S j) rs ->
  exists c, column j rs = Some c /\ length c = length rs /\
    forall b row, nth_error rs b = Some row ->
      exists v pre, nth_error c b = Some v /\ row = pre ++ [v].
Proof.
  induction rs as [|r rs IH]; intros Hall.
  - exists []. simpl. repeat split; auto. intros [|b] row Hb; discriminate.
  - inversion Hall as [|? ? Hr Hrs]; subst.
    destruct (IH Hrs) as (c & Hc & Hlen & Hval).
    destruct (nth_error r j) as [x|] eqn:Hx.
    + exists (x :: c). simpl. rewrite Hx, Hc. repeat split; [simpl; lia|].
      intros [|b] row Hb; simpl in Hb.
      * inversion Hb; subst row.
        destruct (nth_error_last_split r Hr Hx) as [pre Hpre].
        exists x, pre. auto.
      * apply Hval; assumption.
    + apply nth_error_None in Hx. lia.
Qed.

(** On a sequence without positions there is no last one: torch's
    [rewards[:, -1]] raises. *)
Lemma select_last_empty {A} (t : Tensor2 A) :
  shape1 t = 0%nat -> select_last t = Err IndexError.
Proof. intros H. unfold select_last. rewrite H. reflexivity. Qed.

(** C1. For a batch of token sequences no longer than
    [max_sequence_length], [get_reward] is [forward] followed by the
    selection of the last position; so whenever [forward] yields a reward
    tensor with one row per example and a last position, [get_reward]
    returns a tensor of shape [(batch_size,)] whose entry for each example is
    the value of [forward] at that example's last position. *)
Theorem get_reward_last_position (config : ConfigReward)
    (output_sequence output_sequence_mask : Tensor2 Z) (st : TrainerState) :
  Z.of_nat (shape1 output_sequence) <= max_sequence_length config ->
  get_reward config output_sequence output_sequence_mask st =
    (rewards <- forward config output_sequence output_sequence_mask ;;
     lift (select_last rewards)) st
  /\ forall rewards st1,
       forward config output_sequence output_sequence_mask st = (Ok rewards, st1) ->
       well_shaped rewards ->
       shape0 rewards = shape0 output_sequence ->
       (0 < shape1 rewards)%nat ->
       exists r,
         get_reward config output_sequence output_sequence_mask st = (Ok r, st1)
         /\ length r = shape0 output_sequence
         /\ forall b row, nth_error (rows rewards) b = Some row ->
              exists v pre, nth_error r b = Some v /\ row = pre ++ [v].
Proof.
  intros Hlen. unfold get_reward.
  destruct (Z.gtb_spec (Z.of_nat (shape1 output_sequence))
                       (max_sequence_length config)) as [Hgt|_]; [lia|].
  split; [reflexivity|].
  intros rewards st1 Hfwd [Hrows Hcols] Hbatch Hpos.
  unfold bind. rewrite Hfwd. unfold lift, select_last.
  destruct (shape1 rewards) as [|j] eqn:Hj; [lia|].
  destruct (column_last Hcols) as (c & Hc & Hclen & Hval).
  rewrite Hc. exists c. repeat split; [congruence | exact Hval].
Qed.

(** C2. On a token sequence longer than [max_sequence_length], [get_reward]
    raises the length error before [forward] is called: the state is the one
    it was called in, and no call of the base model is recorded. *)
Theorem get_reward_too_long (config : ConfigReward)
    (output_sequence output_sequence_mask : Tensor2 Z) (st : TrainerState) :
  max_sequence_length config < Z.of_nat (shape1 output_sequence) ->
  get_reward config output_sequence output_sequence_mask st =
    (Err (SequenceTooLong (shape1 output_sequence) (max_sequence_length config)), st)
  /\ length (filter is_base_model
               (trace (snd (get_reward config output_sequence output_sequence_mask st))))
     = length (filter is_base_model (trace st)).
Proof.
  intros Hlong. unfold get_reward.
  destruct (Z.gtb_spec (Z.of_nat (shape1 output_sequence))
                       (max_sequence_length config)) as [_|Hle]; [|lia].
  split; reflexivity.
Qed.

End RewardModelProps.

(** ** The steps of the trainer, in closed form *)

Ltac run :=
  cbv beta iota delta [bind ret raise lift gets modify emit call
                       append_training_stats];
  simpl.

Section Steps.
Context {C : Collaborators}.

Lemma set_grad_enabled_restore (st : TrainerState) :
  set_grad_enabled (grad_enabled st) (set_grad_enabled false st) = st.
Proof. destruct st; reflexivity. Qed.

Lemma forward_run config ids mask st :
  forward config ids mask st =
    (h <-? base_model (weights (learner st)) ids mask ;;
     Ok (head (weights (learner st)) h),
     set_trace (trace st ++ forward_events config (grad_enabled st)
                  (base_model (weights (learner st)) ids mask)) st).
Proof.
  destruct st as [l stats g tm cnt ss tr].
  unfold forward, model_forward, forward_events. run.
  destruct (base_model (weights l) ids mask) as [h|e]; simpl; [|reflexivity].
  destruct (debug config); run; unfold set_trace; simpl;
    rewrite <- ?app_assoc; reflexivity.
Qed.

Lemma get_reward_run config ids mask st :
  get_reward config ids mask st =
    (reward_value config (learner st) ids mask,
     set_trace (trace st ++ get_reward_events config (grad_enabled st)
                  (weights (learner st)) ids mask) st).
Proof.
  unfold get_reward, reward_value, get_reward_events.
  destruct (Z.of_nat (shape1 ids) >? max_sequence_length config).
  - destruct st; unfold raise, set_trace; simpl. rewrite app_nil_r. reflexivity.
  - unfold bind. rewrite forward_run.
    destruct (base_model (weights (learner st)) ids mask); reflexivity.
Qed.

Lemma forward_pass_run config ids mask st :
  forward_pass config ids mask st =
    (forward_pass_value config (learner st) ids mask,
     set_trace (trace st ++ forward_pass_events config (grad_enabled st)
                  (weights (learner st)) ids mask) st).
Proof.
  unfold forward_pass, forward_pass_value, forward_pass_events.
  destruct (deepspeed_enable config); [|apply get_reward_run].
  unfold model_engine, engine_value, bind at 1 2. unfold emit, modify.
  rewrite forward_run.
  destruct st as [l stats g tm cnt ss tr]; simpl.
  destruct (base_model (weights l) ids mask); simpl;
    unfold set_trace; simpl; rewrite <- ?app_assoc; reflexivity.
Qed.

Lemma backward_pass_run config loss st :
  backward_pass config loss st =
    (Ok tt,
     set_trace (trace st ++ variant_calls (select_variant config))
       (set_learner (variant_update (select_variant config) loss (learner st)) st)).
Proof.
  destruct st as [l stats g tm cnt ss tr].
  unfold backward_pass, select_variant.
  destruct (deepspeed_enable config), (accelerate_enable config); run;
    unfold set_trace, set_learner; simpl; rewrite <- ?app_assoc; reflexivity.
Qed.

Lemma checkpoints_saving_run config epoch i n_iter st :
  checkpoints_saving config epoch i n_iter st =
    if checkpoint_steps config =? 0 then (Err ZeroDivisionError, st)
    else if cnt_checkpoints st mod checkpoint_steps config =? 0 then
      (Ok tt,
       set_cnt_checkpoints 1
         (set_trace (trace st ++
                       [EvSaveCheckpoint epoch i (epochs config) n_iter]) st))
    else (Ok tt, set_cnt_checkpoints (cnt_checkpoints st + 1) st).
Proof.
  unfold checkpoints_saving, py_mod. run.
  destruct (checkpoint_steps config =? 0); [reflexivity|].
  destruct (cnt_checkpoints st mod checkpoint_steps config =? 0); reflexivity.
Qed.

Lemma train_step_run config n_iter epoch i inputs st :
  train_step config n_iter epoch i inputs st =
    let tok := tokenizer true (fst inputs) in
    let st1 :=
      set_trace (trace st ++ forward_pass_events config (grad_enabled st)
                   (weights (learner st)) (fst tok) (snd tok)) st in
    match forward_pass_value config (learner st) (fst tok) (snd tok) with
    | Err e => (Err e, st1)
    | Ok est_output =>
        let loss := loss_function est_output (map as_float32 (snd inputs)) in
        let st2 :=
          set_trace (trace st1 ++ variant_calls (select_variant config))
            (set_learner (variant_update (select_variant config) loss (learner st))
               (set_training_stats
                  (training_stats st ++ [TrainingLoss (item loss)]) st1)) in
        if iteration_per_print config =? 0 then (Err ZeroDivisionError, st2)
        else
          checkpoints_saving config epoch i n_iter
            (set_trace (trace st2 ++ train_log config n_iter epoch i est_output
                                       (snd inputs) loss) st2)
    end.
Proof.
  unfold train_step. unfold bind at 1. unfold no_grad, ret.
  rewrite set_grad_enabled_restore. simpl fst; simpl snd.
  unfold bind at 1. rewrite forward_pass_run.
  destruct (forward_pass_value config (learner st)
              (fst (tokenizer true (fst inputs)))
              (snd (tokenizer true (fst inputs)))) as [est|e]; [|reflexivity].
  unfold bind at 1. unfold append_training_stats, modify.
  unfold bind at 1. rewrite backward_pass_run.
  unfold bind at 1. unfold lift, py_mod, train_log.
  destruct st as [l stats g tm cnt ss tr]; simpl.
  destruct (iteration_per_print config =? 0); [reflexivity|].
  destruct (i mod iteration_per_print config =? 0); run;
    unfold set_trace; simpl; rewrite <- ?app_assoc, ?app_nil_r; reflexivity.
Qed.

Lemma validation_step_run config n_iter epoch i inputs st :
  validation_step config n_iter epoch i inputs st =
    let tok := tokenizer false (fst inputs) in
    let st1 :=
      set_trace (trace st ++ get_reward_events config (grad_enabled st)
                   (weights (learner st)) (fst tok) (snd tok)) st in
    match reward_value config (learner st) (fst tok) (snd tok) with
    | Err e => (Err e, st1)
    | Ok est_output =>
        let loss := loss_function est_output (map as_float32 (snd inputs)) in
        let st2 :=
          set_training_stats
            (training_stats st ++ [ValidationLoss (item loss)]) st1 in
        if iteration_per_print config =? 0 then (Err ZeroDivisionError, st2)
        else
          (Ok tt,
           set_trace (trace st2 ++ validation_log config n_iter epoch i loss) st2)
    end.
Proof.
  unfold validation_step. unfold bind at 1. rewrite get_reward_run.
  destruct (reward_value config (learner st)
              (fst (tokenizer false (fst inputs)))
              (snd (tokenizer false (fst inputs)))) as [est|e]; [|reflexivity].
  unfold bind at 1. unfold append_training_stats, modify.
  unfold bind at 1. unfold lift, py_mod, validation_log.
  destruct st as [l stats g tm cnt ss tr]; simpl.
  destruct (iteration_per_print config =? 0); [reflexivity|].
  destruct (i mod iteration_per_print config =? 0); run;
    unfold set_trace; simpl; rewrite <- ?app_assoc, ?app_nil_r; reflexivity.
Qed.

End Steps.

(** The five ways a training step can end: the forward pass raises, the
    progress test divides by zero, the checkpoint test divides by zero, a
    checkpoint is saved, or none is. *)
Ltac train_step_cases config st :=
  rewrite train_step_run; cbv zeta;
  match goal with
  | |- context [forward_pass_value ?c ?l ?a ?b] =>
      destruct (forward_pass_value c l a b) as [est_output|err] eqn:Hvalue
  end;
  [ destruct (iteration_per_print config =? 0) eqn:Hprint;
    [ | rewrite checkpoints_saving_run;
        destruct (checkpoint_steps config =? 0) eqn:Hsteps;
        [ | match goal with
            | |- context [?c mod checkpoint_steps config =? 0] =>
                destruct (c mod checkpoint_steps config =? 0) eqn:Hsave
            end ] ]
  | ];
  destruct st as [l stats g tm cnt ss tr]; simpl in *.

(** ** The backend variants *)

Section BackendProps.
Context {C : Collaborators}.

Lemma forward_pass_events_no_learner_call config g w ids mask :
  filter is_learner_call (forward_pass_events config g w ids mask) = [].
Proof.
  unfold forward_pass_events, get_reward_events, forward_events.
  destruct (deepspeed_enable config),
    (Z.of_nat (shape1 ids) >? max_sequence_length config),
    (base_model w ids mask), (debug config); reflexivity.
Qed.

Lemma forward_pass_events_variant config g w ids mask :
  Forall (fun e => forall v, variant_of_event e = Some v -> v = select_variant config)
         (forward_pass_events config g w ids mask).
Proof.
  unfold forward_pass_events, get_reward_events, forward_events, select_variant.
  destruct (deepspeed_enable config); simpl.
  - constructor; [simpl; congruence|].
    constructor; [simpl; congruence|].
    destruct (base_model w ids mask), (debug config);
      repeat constructor; simpl; congruence.
  - destruct (Z.of_nat (shape1 ids) >? max_sequence_length config);
      [constructor|].
    constructor; [simpl; congruence|].
    destruct (base_model w ids mask), (debug config);
      repeat constructor; simpl; congruence.
Qed.

Lemma variant_calls_variant config :
  Forall (fun e : Event F => forall v, variant_of_event e = Some v -> v = select_variant config)
         (variant_calls (select_variant config))
  /\ Exists (fun e : Event F => variant_of_event e = Some (select_variant config))
            (variant_calls (select_variant config)).
Proof.
  split.
  - destruct (select_variant config); simpl;
      repeat (constructor; try (simpl; congruence)).
  - destruct (select_variant config); simpl.
    + apply Exists_cons_tl, Exists_cons_hd. reflexivity.
    + apply Exists_cons_tl, Exists_cons_hd. reflexivity.
    + apply Exists_cons_hd. reflexivity.
Qed.

Lemma train_log_variant config n_iter epoch i est score loss (v : Variant) :
  Forall (fun e : Event F => forall v', variant_of_event e = Some v' -> v' = v)
         (train_log config n_iter epoch i est score loss).
Proof.
  unfold train_log. destruct (i mod iteration_per_print config =? 0);
    repeat constructor; simpl; congruence.
Qed.

Lemma train_log_no_learner_call config n_iter epoch i est score loss :
  filter is_learner_call (train_log config n_iter epoch i est score loss) = [].
Proof.
  unfold train_log. destruct (i mod iteration_per_print config =? 0); reflexivity.
Qed.

Lemma variant_forward_select config ids mask :
  variant_forward (select_variant config) config ids mask =
  forward_pass config ids mask.
Proof.
  unfold variant_forward, select_variant, forward_pass.
  destruct (deepspeed_enable config), (accelerate_enable config); reflexivity.
Qed.

Lemma train_log_neutral config n_iter epoch i est score loss :
  Forall (fun e : Event F => variant_of_event e = None)
         (train_log config n_iter epoch i est score loss).
Proof.
  unfold train_log. destruct (i mod iteration_per_print config =? 0);
    repeat constructor.
Qed.

(** C6. Every training step runs one backend variant, the one the flags
    select with deepspeed before accelerate before plain. Its forward pass is
    that variant's (the engine's forward at the last position, or
    [get_reward]), run on the truncated tokens before anything else; when it
    raises the step stops with that error; otherwise the backward pass is
    that variant's calls, in order and right after the forward pass, the
    learner is updated as that variant does with the loss of the estimate,
    and what follows belongs to no variant. Every call of the step that
    belongs to a single variant belongs to the selected one, and a step that
    completes made such a call. *)
Theorem backend_precedence (config : ConfigReward) (n_iter epoch i : Z)
    (inputs : Batch) (st : TrainerState) :
  let v := if deepspeed_enable config then DistributedOptimized
           else if accelerate_enable config then Accelerated else Plain in
  let ids := fst (tokenizer true (fst inputs)) in
  let mask := snd (tokenizer true (fst inputs)) in
  let fwd := variant_forward v config ids mask st in
  (exists evs,
     trace (snd (train_step config n_iter epoch i inputs st)) = trace st ++ evs
     /\ Forall (fun e => forall v', variant_of_event e = Some v' -> v' = v) evs
     /\ (is_ok (fst (train_step config n_iter epoch i inputs st)) = true ->
         Exists (fun e => variant_of_event e = Some v) evs))
  /\ match fst fwd with
     | Err e => train_step config n_iter epoch i inputs st = (Err e, snd fwd)
     | Ok est_output =>
         let loss := loss_function est_output (map as_float32 (snd inputs)) in
         learner (snd (train_step config n_iter epoch i inputs st)) =
           variant_update v loss (learner st)
         /\ exists evs,
              trace (snd (train_step config n_iter epoch i inputs st)) =
                trace (snd fwd) ++ variant_calls v ++ evs
              /\ Forall (fun e => variant_of_event e = None) evs
     end.
Proof.
  cbv zeta.
  replace (if deepspeed_enable config then DistributedOptimized
           else if accelerate_enable config then Accelerated else Plain)
    with (select_variant config)
    by (unfold select_variant;
        destruct (deepspeed_enable config), (accelerate_enable config);
        reflexivity).
  rewrite variant_forward_select, forward_pass_run. simpl fst. simpl snd.
  pose proof (variant_calls_variant config) as [Hall Hex].
  train_step_cases config st.
  - split.
    + eexists. split; [rewrite <- app_assoc; reflexivity|].
      split; [|discriminate].
      apply Forall_app. split; [apply forward_pass_events_variant | exact Hall].
    + split; [reflexivity|]. exists []. rewrite app_nil_r.
      split; [reflexivity | constructor].
  - split.
    + eexists. split; [rewrite <- !app_assoc; reflexivity|].
      split; [|discriminate].
      rewrite !Forall_app. repeat split;
        [apply forward_pass_events_variant | exact Hall | apply train_log_variant].
    + split; [reflexivity|]. eexists.
      split; [rewrite <- !app_assoc; reflexivity|].
      apply train_log_neutral.
  - split.
    + eexists. split; [rewrite <- !app_assoc; reflexivity|].
      split.
      * rewrite !Forall_app. repeat split;
          [apply forward_pass_events_variant | exact Hall
          | apply train_log_variant|].
        repeat constructor. simpl. congruence.
      * intros _. apply Exists_app. right. apply Exists_app. left. exact Hex.
    + split; [reflexivity|]. eexists.
      split; [rewrite <- !app_assoc; reflexivity|].
      apply Forall_app. split; [apply train_log_neutral | repeat constructor].
  - split.
    + eexists. split; [rewrite <- !app_assoc; reflexivity|].
      split.
      * rewrite !Forall_app. repeat split;
          [apply forward_pass_events_variant | exact Hall
          | apply train_log_variant].
      * intros _. apply Exists_app. right. apply Exists_app. left. exact Hex.
    + split; [reflexivity|]. eexists.
      split; [rewrite <- !app_assoc; reflexivity|].
      apply train_log_neutral.
  - split; [|reflexivity].
    exists (forward_pass_events config g (weights l)
              (fst (tokenizer true (fst inputs)))
              (snd (tokenizer true (fst inputs)))).
    split; [reflexivity|]. split; [apply forward_pass_events_variant|discriminate].
Qed.

(** C7. Under deepspeed the backward pass of a step is [engine.backward]
    then [engine.step] and nothing else acts on the learner: no [zero_grad],
    no scheduler step. In the plain and accelerated variants it is
    [zero_grad], backward (of the loss, or through the accelerator),
    optimizer step, scheduler step. A step that raises before its backward
    pass makes none of these calls. *)
Theorem backward_and_step_calls (config : ConfigReward) (n_iter epoch i : Z)
    (inputs : Batch) (loss : Loss) (st : TrainerState) :
  exists evs,
    trace (snd (train_step config n_iter epoch i inputs st)) = trace st ++ evs /\
    if deepspeed_enable config then
      backward_pass config loss st =
        (Ok tt,
         set_trace (trace st ++ [EvEngineBackward; EvEngineStep])
           (set_learner (engine_step (engine_backward loss (learner st))) st))
      /\ (filter is_learner_call evs = [EvEngineBackward; EvEngineStep]
          \/ (filter is_learner_call evs = []
              /\ is_ok (fst (train_step config n_iter epoch i inputs st)) = false))
    else
      backward_pass config loss st =
        (Ok tt,
         set_trace
           (trace st ++
              [EvZeroGrad;
               if accelerate_enable config then EvAcceleratorBackward
               else EvLossBackward;
               EvOptimizerStep; EvSchedulerStep])
           (set_learner
              (scheduler_step
                 (optimizer_step
                    ((if accelerate_enable config then accelerator_backward loss
                      else loss_backward loss) (zero_grad (learner st))))) st))
      /\ (filter is_learner_call evs =
            [EvZeroGrad;
             if accelerate_enable config then EvAcceleratorBackward
             else EvLossBackward;
             EvOptimizerStep; EvSchedulerStep]
          \/ (filter is_learner_call evs = []
              /\ is_ok (fst (train_step config n_iter epoch i inputs st)) = false)).
Proof.
  assert (Hcalls : filter is_learner_call (variant_calls (select_variant config)) =
                   variant_calls (select_variant config))
    by (destruct (select_variant config); reflexivity).
  assert (Hbw : forall st', backward_pass config loss st' =
            (Ok tt,
             set_trace (trace st' ++ variant_calls (select_variant config))
               (set_learner (variant_update (select_variant config) loss
                               (learner st')) st')))
    by (intros; apply backward_pass_run).
  rewrite (Hbw st). clear Hbw.
  train_step_cases config st;
    eexists; (split; [rewrite <- ?app_assoc; reflexivity|]);
    rewrite ?filter_app, ?forward_pass_events_no_learner_call,
      ?train_log_no_learner_call, ?Hcalls; simpl;
    unfold select_variant;
    destruct (deepspeed_enable config), (accelerate_enable config); simpl;
    split; solve [reflexivity | left; reflexivity | right; split; reflexivity].
Qed.

(** C10. On a training input longer than [max_sequence_length], the
    deepspeed forward pass calls the engine, which runs the base model, and
    yields the engine's value at the last position with no length test; the
    forward pass of the other variants raises the length error and runs no
    forward computation. *)
Theorem deepspeed_forward_pass_unchecked (config : ConfigReward)
    (ids mask : Tensor2 Z) (st : TrainerState) :
  max_sequence_length config < Z.of_nat (shape1 ids) ->
  if deepspeed_enable config then
    fst (forward_pass config ids mask st) = engine_value (learner st) ids mask
    /\ (exists evs,
          trace (snd (forward_pass config ids mask st)) =
          trace st ++ EvEngineForward :: EvBaseModel (grad_enabled st) :: evs)
    /\ length (filter is_base_model (trace (snd (forward_pass config ids mask st))))
       = S (length (filter is_base_model (trace st)))
  else
    forward_pass config ids mask st =
      (Err (SequenceTooLong (shape1 ids) (max_sequence_length config)), st).
Proof.
  intros Hlong. rewrite forward_pass_run.
  unfold forward_pass_value, forward_pass_events.
  destruct (deepspeed_enable config).
  - simpl. split; [reflexivity|]. split.
    + eexists. unfold forward_events. reflexivity.
    + rewrite filter_app, length_app. unfold forward_events. simpl.
      destruct (base_model (weights (learner st)) ids mask), (debug config);
        simpl; lia.
  - unfold reward_value, get_reward_events.
    destruct (Z.gtb_spec (Z.of_nat (shape1 ids)) (max_sequence_length config));
      [|lia].
    destruct st; unfold set_trace; simpl. rewrite app_nil_r. reflexivity.
Qed.

End BackendProps.

(** ** Resuming from a checkpoint *)

Section ResumeProps.
Context {C : Collaborators}.

Lemma train_step_start_step config n_iter epoch i inputs st :
  start_step (snd (train_step config n_iter epoch i inputs st)) = start_step st.
Proof. train_step_cases config st; reflexivity. Qed.

Lemma train_loop_resume config n_iter epoch loader :
  forall i st,
    for_enumerate (train_iteration config n_iter epoch) i loader st =
    resume_loop (train_step config n_iter epoch)
                (Z.to_nat (start_step st - i)) i loader st.
Proof.
  induction loader as [|r rest IH]; intros i st; [reflexivity|].
  simpl. unfold bind at 1 3. unfold lift.
  destruct r as [x|e]; [|destruct (Z.to_nat (start_step st - i)); reflexivity].
  unfold train_iteration. unfold bind at 1 2. unfold gets.
  destruct (Z.ltb_spec i (start_step st)) as [Hlt|Hge].
  - replace (Z.to_nat (start_step st - i))
      with (S (Z.to_nat (start_step st - (i + 1)))) by lia.
    unfold ret. apply IH.
  - replace (Z.to_nat (start_step st - i)) with 0%nat by lia.
    unfold bind at 1 2.
    pose proof (train_step_start_step config n_iter epoch i x st) as Hss.
    destruct (train_step config n_iter epoch i x st) as [[[]|e] st1];
      [|reflexivity].
    simpl in Hss. rewrite IH, Hss.
    replace (Z.to_nat (start_step st - (i + 1))) with 0%nat by lia.
    reflexivity.
Qed.

Lemma train_epoch_resume self n_iter epoch st :
  train_epoch self n_iter epoch st =
  epoch_from self n_iter (Z.to_nat (start_step st)) epoch st.
Proof.
  unfold train_epoch, epoch_from. unfold bind at 1 4. unfold modify.
  unfold bind at 1 3. rewrite train_loop_resume.
  destruct st; simpl. rewrite Z.sub_0_r. reflexivity.
Qed.

Lemma epoch_from_resets self n_iter skip epoch st st' :
  epoch_from self n_iter skip epoch st = (Ok tt, st') -> start_step st' = 0.
Proof.
  unfold epoch_from. unfold bind at 1. unfold modify.
  unfold bind at 1.
  match goal with
  | |- context [resume_loop ?b ?k ?i ?l ?s] =>
      destruct (resume_loop b k i l s) as [[[]|e] st1]; [|discriminate]
  end.
  unfold bind at 1.
  destruct (validation_flag self).
  - destruct (validation self n_iter epoch st1) as [[[]|e] st2];
      [|discriminate].
    intros H. inversion H. reflexivity.
  - unfold ret. intros H. inversion H. reflexivity.
Qed.

Lemma train_epochs_fresh self n_iter epochs_left :
  forall st, start_step st = 0 ->
    for_each (train_epoch self n_iter) epochs_left st =
    for_each (epoch_from self n_iter 0) epochs_left st.
Proof.
  induction epochs_left as [|e es IH]; intros st Hss; [reflexivity|].
  simpl. unfold bind. rewrite train_epoch_resume, Hss. simpl.
  destruct (epoch_from self n_iter 0 e st) as [[[]|err] st1] eqn:He;
    [|reflexivity].
  apply IH. eapply epoch_from_resets. exact He.
Qed.

(** C3. In the epoch training resumes in, a batch whose index is below
    [start_step] is fetched and discarded without any effect, and the others
    are processed; an epoch that completes leaves [start_step] at 0; so the
    first epoch of a run skips its first [start_step] batches and all later
    epochs process every batch from index 0. *)
Theorem resume_skips_completed_steps (self : RewardTrainer) (n_iter epoch : Z)
    (epochs_left : list Z) (st : TrainerState) :
  (forall i inputs,
     i < start_step st ->
     train_iteration (config self) n_iter epoch i inputs st = (Ok tt, st))
  /\ for_enumerate (train_iteration (config self) n_iter epoch) 0
       (dl_batches (train_dataloader self)) st =
     resume_loop (train_step (config self) n_iter epoch)
       (Z.to_nat (start_step st)) 0 (dl_batches (train_dataloader self)) st
  /\ (forall st', train_epoch self n_iter epoch st = (Ok tt, st') ->
                  start_step st' = 0)
  /\ for_each (train_epoch self n_iter) (epoch :: epochs_left) st =
     (epoch_from self n_iter (Z.to_nat (start_step st)) epoch ;;;
      for_each (epoch_from self n_iter 0) epochs_left) st.
Proof.
  repeat split.
  - intros i inputs Hlt. unfold train_iteration, bind, gets.
    destruct (Z.ltb_spec i (start_step st)); [reflexivity | lia].
  - rewrite train_loop_resume, Z.sub_0_r. reflexivity.
  - intros st'. rewrite train_epoch_resume. apply epoch_from_resets.
  - simpl. unfold bind. rewrite train_epoch_resume.
    destruct (epoch_from self n_iter (Z.to_nat (start_step st)) epoch st)
      as [[[]|err] st1] eqn:He; [|reflexivity].
    apply train_epochs_fresh. eapply epoch_from_resets. exact He.
Qed.

End ResumeProps.

(** ** The validation phase *)

Section ValidationProps.
Context {C : Collaborators}.

Lemma get_reward_events_validation config w ids mask :
  Forall validation_event (get_reward_events config false w ids mask).
Proof.
  unfold get_reward_events, forward_events.
  destruct (Z.of_nat (shape1 ids) >? max_sequence_length config),
    (base_model w ids mask), (debug config); repeat constructor.
Qed.

Lemma validation_log_validation config n_iter epoch i loss :
  Forall validation_event (validation_log config n_iter epoch i loss).
Proof.
  unfold validation_log.
  destruct (i mod iteration_per_print config =? 0); repeat constructor.
Qed.

Lemma validation_event_quiet (evs : list (Event F)) :
  Forall validation_event evs ->
  filter is_learner_call evs = [] /\
  filter is_save_checkpoint evs = [] /\
  filter is_model_save evs = [].
Proof.
  induction 1 as [|e evs He _ IH]; [auto|].
  destruct IH as (H1 & H2 & H3).
  destruct e; simpl in *; try contradiction; auto.
Qed.

(** One validation step: it only extends the trace with validation events
    and the statistics with at most one validation loss. *)
Lemma validation_step_frame config n_iter epoch i inputs st :
  grad_enabled st = false ->
  untouched st (snd (validation_step config n_iter epoch i inputs st))
  /\ training_mode (snd (validation_step config n_iter epoch i inputs st)) =
     training_mode st
  /\ (exists evs,
        trace (snd (validation_step config n_iter epoch i inputs st)) =
        trace st ++ evs /\ Forall validation_event evs)
  /\ (exists losses,
        training_stats (snd (validation_step config n_iter epoch i inputs st)) =
        training_stats st ++ map ValidationLoss losses
        /\ (length losses <= 1)%nat
        /\ (fst (validation_step config n_iter epoch i inputs st) = Ok tt ->
            length losses = 1%nat))
  /\ (iteration_per_print config <> 0 ->
      validation_batch_ok config (learner st) (Ok inputs) ->
      fst (validation_step config n_iter epoch i inputs st) = Ok tt).
Proof.
  intros Hg. rewrite validation_step_run. cbv zeta. unfold validation_batch_ok.
  destruct (reward_value config (learner st)
              (fst (tokenizer false (fst inputs)))
              (snd (tokenizer false (fst inputs)))) as [est|err] eqn:Hv;
    [destruct (Z.eqb_spec (iteration_per_print config) 0) as [Hz|Hnz]|];
    destruct st as [l stats g tm cnt ss tr]; simpl in *; subst g;
    (split; [repeat split|]); (split; [reflexivity|]).
  - split; [|split].
    + eexists. split; [reflexivity | apply get_reward_events_validation].
    + eexists (_ :: nil). simpl. repeat split; auto.
    + tauto.
  - split; [|split].
    + eexists. split; [rewrite <- app_assoc; reflexivity|].
      apply Forall_app. split;
        [apply get_reward_events_validation | apply validation_log_validation].
    + eexists (_ :: nil). simpl. repeat split; auto.
    + auto.
  - split; [|split].
    + eexists. split; [reflexivity | apply get_reward_events_validation].
    + exists []. simpl. rewrite app_nil_r. repeat split; auto; discriminate.
    + discriminate.
Qed.

Lemma untouched_refl st : untouched st st.
Proof. repeat split. Qed.

Lemma untouched_trans st1 st2 st3 :
  untouched st1 st2 -> untouched st2 st3 -> untouched st1 st3.
Proof.
  intros (A1 & A2 & A3 & A4) (B1 & B2 & B3 & B4).
  repeat split; congruence.
Qed.

(** The validation loop, by induction on the batches still to come. *)
Lemma validation_loop_frame config n_iter epoch loader :
  forall i st,
    grad_enabled st = false ->
    untouched st (snd (for_enumerate (validation_step config n_iter epoch) i loader st))
    /\ training_mode (snd (for_enumerate (validation_step config n_iter epoch) i loader st))
       = training_mode st
    /\ (exists evs,
          trace (snd (for_enumerate (validation_step config n_iter epoch) i loader st))
          = trace st ++ evs /\ Forall validation_event evs)
    /\ (exists losses,
          training_stats
            (snd (for_enumerate (validation_step config n_iter epoch) i loader st))
          = training_stats st ++ map ValidationLoss losses
          /\ (length losses <= length loader)%nat
          /\ (fst (for_enumerate (validation_step config n_iter epoch) i loader st)
              = Ok tt -> length losses = length loader))
    /\ (iteration_per_print config <> 0 ->
        Forall (validation_batch_ok config (learner st)) loader ->
        fst (for_enumerate (validation_step config n_iter epoch) i loader st) = Ok tt).
Proof.
  induction loader as [|r rest IH]; intros i st Hg.
  - simpl. split; [apply untouched_refl|]. split; [reflexivity|].
    split; [exists []; rewrite app_nil_r; auto|].
    split; [exists []; simpl; rewrite app_nil_r; auto|]. reflexivity.
  - rewrite for_enumerate_cons.
    destruct r as [x|err].
    + destruct (validation_step_frame config n_iter epoch i x st Hg)
        as (Hu & Htm & (evs & Htr & Hevs) & (ls & Hst & Hle & Hone) & Hok).
      destruct (validation_step config n_iter epoch i x st) as [[[]|err] st1];
        simpl in *.
      * assert (Hg1 : grad_enabled st1 = false)
          by (destruct Hu as (_ & _ & _ & Hu4); congruence).
        destruct (IH (i + 1) st1 Hg1)
          as (Hu' & Htm' & (evs' & Htr' & Hevs') & (ls' & Hst' & Hle' & Hall') & Hok').
        split; [eapply untouched_trans; eassumption|].
        split; [congruence|].
        split.
        { exists (evs ++ evs'). rewrite Htr', Htr, app_assoc.
          split; [reflexivity | apply Forall_app; auto]. }
        split.
        { exists (ls ++ ls'). rewrite Hst', Hst, map_app, app_assoc, length_app.
          split; [reflexivity|]. split; [lia|].
          intros Hres. rewrite (Hone eq_refl), (Hall' Hres). reflexivity. }
        intros Hnz Hall. inversion Hall as [|? ? Hx Hrest]; subst.
        apply Hok'; [assumption|].
        destruct Hu as (Hl & _). rewrite Hl. assumption.
      * split; [assumption|]. split; [assumption|].
        split; [exists evs; auto|].
        split.
        { exists ls. split; [assumption|]. split; [lia | discriminate]. }
        intros Hnz Hall. inversion Hall as [|? ? Hx Hrest]; subst.
        specialize (Hok Hnz Hx). discriminate.
    + simpl. split; [apply untouched_refl|]. split; [reflexivity|].
      split; [exists []; rewrite app_nil_r; auto|].
      split.
      { exists []. simpl. rewrite app_nil_r.
        split; [reflexivity|]. split; [lia | discriminate]. }
      intros _ Hall. inversion Hall as [|? ? Hx Hrest]; subst. contradiction.
Qed.

(** The whole validation phase, whatever its outcome. *)
Lemma validation_frame self n_iter epoch st :
  untouched st (snd (validation self n_iter epoch st))
  /\ (exists evs,
        trace (snd (validation self n_iter epoch st)) = trace st ++ evs
        /\ Forall validation_event evs)
  /\ (exists losses,
        training_stats (snd (validation self n_iter epoch st)) =
        training_stats st ++ map ValidationLoss losses
        /\ forall loader, validation_dataloader self = Some loader ->
             (length losses <= length (dl_batches loader))%nat
             /\ (fst (validation self n_iter epoch st) = Ok tt ->
                 length losses = length (dl_batches loader)))
  /\ (forall loader,
        validation_dataloader self = Some loader ->
        iteration_per_print (config self) <> 0 ->
        Forall (validation_batch_ok (config self) (learner st)) (dl_batches loader) ->
        fst (validation self n_iter epoch st) = Ok tt).
Proof.
  unfold validation. unfold bind, modify, no_grad.
  destruct (validation_dataloader self) as [loader|].
  - match goal with
    | |- context [for_enumerate ?b 0 ?l ?s] =>
        destruct (validation_loop_frame (config self) n_iter epoch l 0 s)
          as (Hu & Htm & (evs & Htr & Hevs) & (ls & Hst & Hle & Hall) & Hok);
          [destruct st; reflexivity|];
        destruct (for_enumerate b 0 l s) as [r st2]
    end.
    destruct Hu as (H1 & H2 & H3 & H4).
    destruct st as [l stats g tm cnt ss tr], st2 as [l2 stats2 g2 tm2 cnt2 ss2 tr2];
      simpl in *.
    split; [repeat split; assumption|].
    split.
    { exists (EvModelEval :: evs). rewrite Htr, <- app_assoc.
      split; [reflexivity | constructor; [exact I | assumption]]. }
    split.
    { exists ls. split; [assumption|]. intros loader' Heq.
      inversion Heq; subst loader'. split; assumption. }
    intros loader' Heq Hnz Hbatches. inversion Heq; subst loader'.
    apply Hok; assumption.
  - unfold raise. destruct st as [l stats g tm cnt ss tr]; simpl.
    split; [repeat split|].
    split; [exists [EvModelEval]; split; [reflexivity | repeat constructor]|].
    split; [|intros loader Heq; discriminate].
    exists []. simpl. rewrite app_nil_r. split; [reflexivity|].
    intros loader Heq. discriminate.
Qed.

(** Validation records no training batch, no checkpoint, no model save. *)
Lemma validation_counts self n_iter epoch st :
  processed (snd (validation self n_iter epoch st)) = processed st
  /\ saved (snd (validation self n_iter epoch st)) = saved st
  /\ model_saves (snd (validation self n_iter epoch st)) = model_saves st.
Proof.
  destruct (validation_frame self n_iter epoch st)
    as (_ & (evs & Htr & Hevs) & (ls & Hst & _) & _).
  destruct (validation_event_quiet Hevs) as (_ & Hq2 & Hq3).
  unfold processed, saved, model_saves.
  rewrite Hst, Htr, !filter_app, Hq2, Hq3, !app_nil_r.
  replace (filter is_training_loss (map ValidationLoss ls)) with (@nil (Stat F))
    by (clear; induction ls; simpl; auto).
  rewrite app_nil_r. auto.
Qed.


End ValidationProps.

(** ** Checkpoint cadence *)

Section CheckpointProps.
Context {C : Collaborators}.

(** Counting one more batch: the counter wraps exactly at the multiples of
    the cadence. *)
Lemma cadence_tick (N a : Z) :
  0 < N ->
  ((a mod N + 1) mod N = 0 -> (a + 1) mod N = 0 /\ (a + 1) / N = a / N + 1)
  /\ ((a mod N + 1) mod N <> 0 ->
      (a + 1) mod N = a mod N + 1 /\ (a + 1) / N = a / N).
Proof.
  intros HN.
  pose proof (Z.mod_pos_bound a N HN) as Hr.
  pose proof (Z.div_mod a N ltac:(lia)) as Ha.
  split; intros Hm.
  - assert (Hfull : a mod N + 1 = N).
    { destruct (Z.eq_dec (a mod N + 1) N) as [|Hne]; [assumption|].
      rewrite Z.mod_small in Hm by lia. lia. }
    assert (Heq : a + 1 = N * (a / N + 1) + 0) by lia.
    split.
    + symmetry. apply (Z.mod_unique_pos (a + 1) N (a / N + 1) 0); lia.
    + symmetry. apply (Z.div_unique_pos (a + 1) N (a / N + 1) 0); lia.
  - assert (Hlt : a mod N + 1 < N).
    { destruct (Z.eq_dec (a mod N + 1) N) as [Heq|Hne]; [|lia].
      rewrite Heq, Z.mod_same in Hm by lia. lia. }
    assert (Heq : a + 1 = N * (a / N) + (a mod N + 1)) by lia.
    split.
    + symmetry. apply (Z.mod_unique_pos (a + 1) N (a / N) (a mod N + 1)); lia.
    + symmetry. apply (Z.div_unique_pos (a + 1) N (a / N) (a mod N + 1)); lia.
Qed.

Lemma forward_pass_events_no_save config g w ids mask :
  filter is_save_checkpoint (forward_pass_events config g w ids mask) = []
  /\ filter is_model_save (forward_pass_events config g w ids mask) = [].
Proof.
  unfold forward_pass_events, get_reward_events, forward_events.
  destruct (deepspeed_enable config),
    (Z.of_nat (shape1 ids) >? max_sequence_length config),
    (base_model w ids mask), (debug config); split; reflexivity.
Qed.

Lemma variant_calls_no_save (v : Variant) :
  filter is_save_checkpoint (@variant_calls C v) = []
  /\ filter is_model_save (@variant_calls C v) = [].
Proof. destruct v; split; reflexivity. Qed.

Lemma train_log_no_save config n_iter epoch i est score loss :
  filter is_save_checkpoint (train_log config n_iter epoch i est score loss) = []
  /\ filter is_model_save (train_log config n_iter epoch i est score loss) = [].
Proof.
  unfold train_log. destruct (i mod iteration_per_print config =? 0);
    split; reflexivity.
Qed.

(** A completed training step counts one batch and saves a checkpoint
    exactly when the number of batches counted reaches a multiple of the
    cadence. *)
Lemma train_step_cadence config n_iter epoch i inputs p0 s0 st st' :
  0 < checkpoint_steps config ->
  cadence (checkpoint_steps config) p0 s0 st ->
  train_step config n_iter epoch i inputs st = (Ok tt, st') ->
  cadence (checkpoint_steps config) p0 s0 st'
  /\ processed st' = processed st + 1
  /\ saved st' - saved st =
     (if (processed st' - p0) mod checkpoint_steps config =? 0 then 1 else 0)
  /\ model_saves st' = model_saves st.
Proof.
  intros HN [Hcnt Hsaved].
  destruct (cadence_tick (processed st - p0) HN) as [Hwrap Hnext].
  destruct (forward_pass_events_no_save config (grad_enabled st)
              (weights (learner st)) (fst (tokenizer true (fst inputs)))
              (snd (tokenizer true (fst inputs)))) as [Hf1 Hf2].
  destruct (variant_calls_no_save (select_variant config)) as [Hv1 Hv2].
  revert Hcnt Hsaved Hwrap Hnext Hf1 Hf2.
  unfold cadence, processed, saved, model_saves.
  train_step_cases config st; intros Hcnt Hsaved Hwrap Hnext Hf1 Hf2 Hrun;
    try discriminate; inversion Hrun; subst st'; clear Hrun; simpl;
    match goal with
    | |- context [train_log ?c ?n ?e ?j ?a ?b ?d] =>
        destruct (train_log_no_save c n e j a b d) as [Ht1 Ht2]
    end;
    rewrite ?filter_app, ?Hf1, ?Hf2, ?Hv1, ?Hv2, ?Ht1, ?Ht2; simpl;
    rewrite ?app_nil_r, ?length_app; simpl length;
    rewrite ?Nat2Z.inj_add; simpl Z.of_nat;
    replace (Z.of_nat (length (filter is_training_loss stats)) + 1 - p0)
      with (Z.of_nat (length (filter is_training_loss stats)) - p0 + 1) by lia.
  - apply Z.eqb_eq in Hsave. rewrite Hcnt in Hsave.
    destruct (Hwrap Hsave) as [Hm Hd]. rewrite Hm, Hd. simpl.
    repeat split; lia.
  - apply Z.eqb_neq in Hsave. rewrite Hcnt in Hsave.
    destruct (Hnext Hsave) as [Hm Hd]. rewrite Hm, Hd.
    pose proof (Z.mod_pos_bound
                  (Z.of_nat (length (filter is_training_loss stats)) - p0)
                  (checkpoint_steps config) HN).
    destruct (Z.eqb_spec
                ((Z.of_nat (length (filter is_training_loss stats)) - p0)
                   mod checkpoint_steps config + 1) 0); [lia|].
    repeat split; lia.
Qed.

(** The invariant of the training loops: the cadence, and no model save. *)
Lemma train_iteration_cadence config n_iter epoch i inputs p0 s0 m0 :
  0 < checkpoint_steps config ->
  hoare (fun st => cadence (checkpoint_steps config) p0 s0 st /\ model_saves st = m0)
        (train_iteration config n_iter epoch i inputs)
        (fun _ st => cadence (checkpoint_steps config) p0 s0 st /\ model_saves st = m0)
        (fun _ => True).
Proof.
  intros HN st [Hc Hm]. unfold train_iteration, bind, gets.
  destruct (i <? start_step st); [simpl; auto|].
  destruct (train_step config n_iter epoch i inputs st) as [[[]|e] st'] eqn:Hrun;
    [|exact I].
  destruct (train_step_cadence _ _ _ _ _ HN Hc Hrun) as (Hc' & _ & _ & Hm').
  split; [assumption | congruence].
Qed.

Lemma validation_cadence self n_iter epoch N p0 s0 m0 :
  hoare (fun st => cadence N p0 s0 st /\ model_saves st = m0)
        (validation self n_iter epoch)
        (fun _ st => cadence N p0 s0 st /\ model_saves st = m0)
        (fun _ => True).
Proof.
  intros st [[Hcnt Hsaved] Hm].
  destruct (validation_counts self n_iter epoch st) as (Hp & Hs & Hms).
  destruct (validation_frame self n_iter epoch st) as ((_ & Hc & _) & _).
  destruct (validation self n_iter epoch st) as [[[]|e] st']; [|exact I].
  simpl in *. unfold cadence. rewrite Hp, Hs, Hc, Hms. auto.
Qed.

Lemma train_epoch_cadence self n_iter epoch p0 s0 m0 :
  0 < checkpoint_steps (config self) ->
  hoare (fun st => cadence (checkpoint_steps (config self)) p0 s0 st
                   /\ model_saves st = m0)
        (train_epoch self n_iter epoch)
        (fun _ st => cadence (checkpoint_steps (config self)) p0 s0 st
                     /\ model_saves st = m0)
        (fun _ => True).
Proof.
  intros HN. unfold train_epoch.
  set (Inv := fun st => cadence (checkpoint_steps (config self)) p0 s0 st
                        /\ model_saves st = m0).
  apply hoare_bind with (Q := fun _ : unit => Inv).
  { apply hoare_modify.
    intros st [[Hcnt Hsaved] Hm]. destruct st; revert Hcnt Hsaved Hm.
    unfold Inv, cadence, processed, saved, model_saves. simpl.
    rewrite !filter_app. simpl. rewrite !app_nil_r. auto. }
  intros u1. apply hoare_bind with (Q := fun _ : unit => Inv).
  { apply hoare_for_enumerate; [auto|].
    intros i x. apply train_iteration_cadence. assumption. }
  intros u2. apply hoare_bind with (Q := fun _ : unit => Inv).
  { apply hoare_if; intros _.
    - apply validation_cadence.
    - apply hoare_ret. intros st H. exact H. }
  intros u3. apply hoare_modify.
  intros st [[Hcnt Hsaved] Hm]. destruct st; split; [split|]; assumption.
Qed.

(** C4. With a positive [checkpoint_steps] N, a training step saves a
    checkpoint exactly when the number of batches processed since the start
    of the run reaches a multiple of N; over a run that completes, the number
    of checkpoints saved is the number of batches processed divided by N,
    with one counter across all epochs; and the model is saved once, after
    the last epoch, as the last action before the final log line. *)
Theorem checkpoint_cadence (self : RewardTrainer) :
  0 < checkpoint_steps (config self) ->
  (forall n_iter epoch i inputs p0 s0 st st',
     cadence (checkpoint_steps (config self)) p0 s0 st ->
     train_step (config self) n_iter epoch i inputs st = (Ok tt, st') ->
     cadence (checkpoint_steps (config self)) p0 s0 st'
     /\ processed st' = processed st + 1
     /\ saved st' - saved st =
        (if (processed st' - p0) mod checkpoint_steps (config self) =? 0
         then 1 else 0))
  /\ (forall st st',
        train self st = (Ok tt, st') ->
        saved st' - saved st =
          (processed st' -
           Z.of_nat (length (filter is_training_loss
                               (snd (load_checkpoint (learner st) (training_stats st))))))
          / checkpoint_steps (config self)
        /\ cnt_checkpoints st' =
          (processed st' -
           Z.of_nat (length (filter is_training_loss
                               (snd (load_checkpoint (learner st) (training_stats st))))))
          mod checkpoint_steps (config self) + 1
        /\ model_saves st' = model_saves st + 1
        /\ exists pre, trace st' = pre ++ [EvModelSave; EvLog LogFinished]).
Proof.
  intros HN. split.
  { intros n_iter epoch i inputs p0 s0 st st' Hc Hrun.
    destruct (train_step_cadence _ _ _ _ _ HN Hc Hrun) as (H1 & H2 & H3 & _).
    auto. }
  intros st st'. unfold train.
  unfold bind at 1. unfold emit at 1, modify at 1.
  unfold bind at 1. unfold emit at 1, modify at 1.
  unfold bind at 1. unfold lift, py_int_div.
  match goal with
  | |- context [if ?b =? 0 then _ else _] => destruct (b =? 0)
  end; [discriminate|].
  unfold bind at 1.
  destruct (load_checkpoint (learner st) (training_stats st))
    as [[start l0] stats0] eqn:Hload.
  destruct st as [l stats g tm cnt ss tr]; simpl in Hload; simpl.
  rewrite Hload.
  unfold bind at 1. unfold modify at 1.
  unfold bind at 1. unfold modify at 1.
  set (p0 := Z.of_nat (length (filter is_training_loss stats0))).
  set (s0 := Z.of_nat (length (filter is_save_checkpoint tr))).
  set (m0 := Z.of_nat (length (filter is_model_save tr))).
  unfold set_cnt_checkpoints, set_start_step, set_trace, set_training_stats,
    set_learner. simpl.
  unfold bind at 1.
  match goal with
  | |- context [for_each (train_epoch self ?n) ?es ?s] =>
      assert (Hloop :
        hoare (fun st => cadence (checkpoint_steps (config self)) p0 s0 st
                         /\ model_saves st = m0)
              (for_each (train_epoch self n) es)
              (fun _ st => cadence (checkpoint_steps (config self)) p0 s0 st
                           /\ model_saves st = m0)
              (fun _ => True))
        by (apply hoare_for_each; intros e; apply train_epoch_cadence;
            assumption);
      specialize (Hloop s);
      set (st1 := s) in *
  end.
  assert (Hinit : cadence (checkpoint_steps (config self)) p0 s0 st1
                  /\ model_saves st1 = m0).
  { unfold cadence, processed, saved, model_saves, st1, p0, s0, m0. simpl.
    rewrite !filter_app. simpl. rewrite !app_nil_r.
    rewrite !Z.sub_diag, Z.mod_0_l, Z.div_0_l by lia.
    repeat split; reflexivity. }
  specialize (Hloop Hinit).
  match goal with
  | |- context [for_each ?b ?es st1] => destruct (for_each b es st1) as [[[]|e] st2]
  end; [|discriminate].
  destruct Hloop as [[Hcnt Hsaved] Hm].
  unfold cadence, processed, saved, model_saves in *.
  destruct st2 as [l2 stats2 g2 tm2 cnt2 ss2 tr2]. run.
  intros Hrun. inversion Hrun; subst st'; clear Hrun. simpl in *.
  rewrite !filter_app. simpl. rewrite !app_nil_r, !length_app. simpl length.
  fold p0. repeat split; try lia.
  exists tr2. rewrite <- app_assoc. reflexivity.
Qed.

End CheckpointProps.

(** ** RewardDataset and the batch source *)

Section DatasetProps.
Context {C : Collaborators}.

Lemma py_index_in_range {A} (l : list A) (idx : Z) :
  - Z.of_nat (length l) <= idx < Z.of_nat (length l) ->
  exists x,
    nth_error l (Z.to_nat (if idx <? 0 then idx + Z.of_nat (length l) else idx))
      = Some x
    /\ py_index l idx = Ok x.
Proof.
  intros Hrange. unfold py_index.
  set (pos := if idx <? 0 then idx + Z.of_nat (length l) else idx).
  assert (Hpos : 0 <= pos < Z.of_nat (length l))
    by (unfold pos; destruct (Z.ltb_spec idx 0); lia).
  destruct (Z.ltb_spec pos 0); [lia|].
  destruct (Z.leb_spec (Z.of_nat (length l)) pos); [lia|]. simpl.
  destruct (nth_error l (Z.to_nat pos)) as [x|] eqn:Hnth.
  - exists x. auto.
  - apply nth_error_None in Hnth. lia.
Qed.

Lemma py_index_out_of_range {A} (l : list A) (idx : Z) :
  idx < - Z.of_nat (length l) \/ Z.of_nat (length l) <= idx ->
  py_index l idx = Err IndexError.
Proof.
  intros Hout. unfold py_index.
  destruct (Z.ltb_spec idx 0).
  - destruct (Z.ltb_spec (idx + Z.of_nat (length l)) 0); [reflexivity|].
    destruct (Z.leb_spec (Z.of_nat (length l)) (idx + Z.of_nat (length l)));
      [reflexivity | lia].
  - destruct (Z.ltb_spec idx 0); [lia|].
    destruct (Z.leb_spec (Z.of_nat (length l)) idx); [reflexivity | lia].
Qed.

Lemma getitem_sample self idx e :
  py_index (data self) idx = Ok e -> __getitem__ self idx = sample_of e.
Proof.
  intros H. unfold __getitem__, sample_of. rewrite H. simpl.
  destruct (py_float (score e)); reflexivity.
Qed.

(** C9. For an index in range (from the end when negative),
    [__getitem__] returns the entry's [user_input] followed directly by its
    [completion], paired with [float(score)]: the score itself when it is a
    float, its conversion when it is an int. *)
Theorem getitem_concatenates (self : RewardDataset) (idx : Z) :
  - Z.of_nat (__len__ self) <= idx < Z.of_nat (__len__ self) ->
  exists e,
    nth_error (data self)
      (Z.to_nat (if idx <? 0 then idx + Z.of_nat (__len__ self) else idx)) = Some e
    /\ __getitem__ self idx =
       (x <-? py_float (score e) ;;
        Ok (String.append (user_input e) (completion e), x))
    /\ (forall x, score e = NFloat x ->
          __getitem__ self idx =
          Ok (String.append (user_input e) (completion e), x))
    /\ (forall n x, score e = NInt n -> float_of_int n = Some x ->
          __getitem__ self idx =
          Ok (String.append (user_input e) (completion e), x)).
Proof.
  intros Hrange. unfold __len__ in *.
  destruct (@py_index_in_range _ (data self) idx Hrange) as (e & Hnth & Hidx).
  exists e. pose proof (@getitem_sample self idx e Hidx) as Hget.
  unfold sample_of in Hget.
  split; [assumption|]. split; [assumption|]. split.
  - intros x Hx. rewrite Hget, Hx. reflexivity.
  - intros n x Hn Hx. rewrite Hget, Hn. simpl. rewrite Hx. reflexivity.
Qed.

End DatasetProps.

(** ** The batch source *)

Section BatchSourceProps.
Context {C : Collaborators}.

Local Open Scope nat_scope.

Lemma ceil_div_spec M B :
  0 < B -> ceil_div M B = M / B + (if M mod B =? 0 then 0 else 1).
Proof.
  intros HB. unfold ceil_div.
  assert (HM : M = M / B * B + M mod B)
    by (rewrite Nat.mul_comm; apply Nat.div_mod_eq).
  pose proof (Nat.mod_upper_bound M B ltac:(lia)) as Hr.
  destruct (Nat.eqb_spec (M mod B) 0) as [Hz|Hnz].
  - replace (M + B - 1) with (M / B * B + (B - 1)) by lia.
    rewrite Nat.div_add_l, (Nat.div_small (B - 1) B) by lia. lia.
  - replace (M + B - 1) with ((M / B + 1) * B + (M mod B - 1))
      by (rewrite Nat.mul_add_distr_r; lia).
    rewrite Nat.div_add_l, (Nat.div_small (M mod B - 1) B) by lia. lia.
Qed.

Lemma ceil_div_0 B : 0 < B -> ceil_div 0 B = 0.
Proof. intros HB. unfold ceil_div. simpl. apply Nat.div_small. lia. Qed.

Lemma ceil_div_small n B : 0 < n -> n <= B -> ceil_div n B = 1.
Proof.
  intros Hn HB. unfold ceil_div.
  replace (n + B - 1) with (1 * B + (n - 1)) by lia.
  rewrite Nat.div_add_l, (Nat.div_small (n - 1) B) by lia. lia.
Qed.

Lemma ceil_div_add n B : 0 < B -> ceil_div (B + n) B = S (ceil_div n B).
Proof.
  intros HB. unfold ceil_div.
  replace (B + n + B - 1) with (1 * B + (n + B - 1)) by lia.
  rewrite Nat.div_add_l by lia. reflexivity.
Qed.

(** The size of the slice that starts at [j * B]. *)
Lemma slice_size M B j :
  0 < B -> j < ceil_div M B -> Nat.min B (M - j * B) = batch_size_at M B j.
Proof.
  intros HB Hj. unfold batch_size_at. rewrite ceil_div_spec in * by assumption.
  assert (HM : M = M / B * B + M mod B)
    by (rewrite Nat.mul_comm; apply Nat.div_mod_eq).
  pose proof (Nat.mod_upper_bound M B ltac:(lia)) as Hr.
  assert (Hfull : j < M / B -> B + j * B <= M / B * B)
    by (intros Hlt; apply (Nat.mul_le_mono_r (S j) (M / B) B); lia).
  destruct (Nat.eqb_spec (M mod B) 0) as [Hz|Hnz]; cbn [negb].
  - rewrite andb_false_r. specialize (Hfull ltac:(lia)). lia.
  - rewrite andb_true_r.
    destruct (Nat.eqb_spec (S j) (M / B + 1)) as [Hlast|Hnot].
    + assert (j = M / B) by lia. subst j. lia.
    + specialize (Hfull ltac:(lia)). lia.
Qed.

(** The batch sampler cuts [batch ++ sampler] into consecutive slices. *)
Lemma batch_sampler_slices B :
  0 < B ->
  forall sampler batch,
    length batch < B ->
    length (batch_sampler B sampler batch) =
      ceil_div (length batch + length sampler) B
    /\ forall j, j < ceil_div (length batch + length sampler) B ->
         nth_error (batch_sampler B sampler batch) j =
         Some (firstn B (skipn (j * B) (batch ++ sampler))).
Proof.
  intros HB. induction sampler as [|idx rest IH]; intros batch Hlen.
  - simpl. rewrite Nat.add_0_r, app_nil_r. destruct batch as [|b bs].
    + rewrite ceil_div_0 by assumption. split; [reflexivity | lia].
    + rewrite ceil_div_small by (simpl in *; lia).
      split; [reflexivity|]. intros j Hj.
      replace j with 0 by lia. simpl skipn.
      rewrite firstn_all2 by lia. reflexivity.
  - simpl batch_sampler. rewrite length_app. simpl length.
    replace (batch ++ idx :: rest) with ((batch ++ [idx]) ++ rest)
      by (rewrite <- app_assoc; reflexivity).
    destruct (Nat.eqb_spec (length batch + 1) B) as [Hfull|Hpart].
    + destruct (IH [] HB) as [IHlen IHnth]. simpl in IHlen, IHnth.
      replace (length batch + S (length rest)) with (B + length rest) by lia.
      rewrite ceil_div_add by assumption. simpl length. split; [lia|].
      intros [|j] Hj.
      * simpl nth_error. simpl skipn. rewrite firstn_app.
        rewrite (@firstn_all2 _ B (batch ++ [idx]))
          by (rewrite length_app; simpl; lia).
        rewrite length_app. simpl length.
        replace (B - (length batch + 1)) with 0 by lia.
        rewrite app_nil_r. reflexivity.
      * simpl nth_error. rewrite IHnth by lia.
        replace (S j * B) with (j * B + B) by lia.
        rewrite <- skipn_skipn.
        rewrite (skipn_app B).
        rewrite (@skipn_all2 _ B (batch ++ [idx]))
          by (rewrite length_app; simpl; lia).
        rewrite length_app. simpl length.
        replace (B - (length batch + 1)) with 0 by lia. reflexivity.
    + assert (Hlen' : length (batch ++ [idx]) < B)
        by (rewrite length_app; simpl; lia).
      destruct (IH (batch ++ [idx]) Hlen') as [IHlen IHnth].
      rewrite length_app in IHlen, IHnth. simpl length in IHlen, IHnth.
      replace (length batch + S (length rest))
        with (length batch + 1 + length rest) by lia.
      split; assumption.
Qed.

Lemma firstn_seq n a len : firstn n (seq a len) = seq a (Nat.min n len).
Proof.
  revert a len. induction n as [|n IH]; intros a [|len]; simpl; try reflexivity.
  rewrite IH. reflexivity.
Qed.

Lemma firstn_min {A} n (l : list A) : firstn (Nat.min n (length l)) l = firstn n l.
Proof.
  destruct (Nat.le_ge_cases n (length l)).
  - rewrite Nat.min_l by assumption. reflexivity.
  - rewrite Nat.min_r, firstn_all, firstn_all2 by assumption. reflexivity.
Qed.

Lemma skipn_nth_error {A} (l : list A) a x :
  nth_error l a = Some x -> skipn a l = x :: skipn (S a) l.
Proof.
  revert a. induction l as [|y l IH]; intros [|a] H; try discriminate.
  - inversion H. reflexivity.
  - simpl in *. apply IH. assumption.
Qed.

Lemma rmap_nth {A B} (f : A -> result B) l ys :
  rmap f l = Ok ys ->
  length ys = length l
  /\ forall i x, nth_error l i = Some x ->
       exists y, nth_error ys i = Some y /\ f x = Ok y.
Proof.
  revert ys. induction l as [|a l IH]; intros ys H; simpl in H.
  - inversion H. split; [reflexivity|]. intros [|i] x Hx; discriminate.
  - destruct (f a) as [b|e] eqn:Hfa; [|discriminate]. simpl in H.
    destruct (rmap f l) as [bs|e]; [|discriminate]. simpl in H.
    inversion H; subst ys. destruct (IH bs eq_refl) as [Hlen Hnth].
    split; [simpl; lia|]. intros [|i] x Hx; simpl in *.
    + inversion Hx; subst. eauto.
    + apply Hnth. assumption.
Qed.

(** Fetching consecutive indices yields the corresponding samples. *)
Lemma fetch_slice dataset items :
  samples_of dataset = Ok items ->
  forall len a,
    a + len <= __len__ dataset ->
    rmap (fun i => __getitem__ dataset (Z.of_nat i)) (seq a len) =
    Ok (firstn len (skipn a items)).
Proof.
  intros Hitems. unfold samples_of in Hitems.
  destruct (@rmap_nth _ _ _ _ _ Hitems) as [Hlen Hnth]. unfold __len__.
  induction len as [|len IH]; intros a Ha; [reflexivity|].
  simpl rmap.
  destruct (nth_error (data dataset) a) as [e|] eqn:He;
    [|apply nth_error_None in He; lia].
  destruct (Hnth a e He) as (y & Hy & Hsample).
  assert (Hget : __getitem__ dataset (Z.of_nat a) = Ok y).
  { rewrite <- Hsample. apply getitem_sample. unfold py_index.
    destruct (Z.ltb_spec (Z.of_nat a) 0); [lia|].
    destruct (Z.ltb_spec (Z.of_nat a) 0); [lia|].
    destruct (Z.leb_spec (Z.of_nat (length (data dataset))) (Z.of_nat a));
      [lia|].
    simpl. rewrite Nat2Z.id, He. reflexivity. }
  rewrite Hget. simpl. rewrite IH by lia. simpl.
  rewrite (@skipn_nth_error _ _ _ _ Hy). reflexivity.
Qed.

(** The slices of a list, put end to end, are the list. *)
Lemma concat_slices {A} B :
  0 < B ->
  forall k (l : list A),
    ceil_div (length l) B = k ->
    concat (map (fun j => firstn B (skipn (j * B) l)) (seq 0 k)) = l.
Proof.
  intros HB. induction k as [|k IH]; intros l Hk.
  - rewrite ceil_div_spec in Hk by assumption.
    assert (HM : length l = length l / B * B + length l mod B)
      by (rewrite Nat.mul_comm; apply Nat.div_mod_eq).
    destruct (Nat.eqb_spec (length l mod B) 0); [|lia].
    destruct l; [reflexivity | simpl in *; nia].
  - rewrite <- cons_seq. simpl. rewrite <- seq_shift, map_map.
    transitivity (firstn B l ++ skipn B l); [|apply firstn_skipn]. f_equal.
    rewrite <- (IH (skipn B l)) at 1.
    + f_equal. apply map_ext. intros j.
      rewrite skipn_skipn. f_equal. f_equal. lia.
    + rewrite length_skipn.
      destruct (Nat.le_gt_cases B (length l)) as [Hge|Hlt].
      * replace (length l) with (B + (length l - B)) in Hk by lia.
        rewrite ceil_div_add in Hk by assumption. lia.
      * replace (length l - B) with 0 by lia.
        rewrite ceil_div_0 by assumption.
        destruct (Nat.eq_dec (length l) 0) as [Hz|Hnz].
        -- rewrite Hz, ceil_div_0 in Hk by assumption. discriminate.
        -- rewrite ceil_div_small in Hk by lia. lia.
Qed.

(** C8. For a store of [M] entries and a batch size [B > 0], the data
    loader that lines 174-177 of [__init__] build for training yields
    [ceil(M / B)] batches per
    traversal; when every entry loads, batch [j] holds the samples
    [j * B .. j * B + B - 1] of the store in store order, every batch has [B]
    samples except a last one of [M mod B] when [B] does not divide [M], the
    batches put end to end are the store, and their sizes add up to [M]. *)
Theorem dataloader_partition (dataset : RewardDataset) (B : Z) :
  (0 < B)%Z ->
  exists loader,
    DataLoader dataset B = Ok loader
    /\ (forall config validation_file self,
          batch_size config = B ->
          create_dataloaders config (data dataset) validation_file = Ok self ->
          train_dataloader self = loader)
    /\ dl_batch_size loader = B
    /\ length (dl_batches loader) = ceil_div (__len__ dataset) (Z.to_nat B)
    /\ forall items,
         samples_of dataset = Ok items ->
         (forall j,
            j < ceil_div (__len__ dataset) (Z.to_nat B) ->
            nth_error (dl_batches loader) j =
            Some (Ok (default_collate
                        (firstn (Z.to_nat B) (skipn (j * Z.to_nat B) items)))))
         /\ (forall j b,
               nth_error (dl_batches loader) j = Some (Ok b) ->
               batch_len b = batch_size_at (__len__ dataset) (Z.to_nat B) j)
         /\ exists bs,
              dl_batches loader = map Ok bs
              /\ concat (map fst bs) = map fst items
              /\ concat (map snd bs) = map snd items
              /\ list_sum (map batch_len bs) = __len__ dataset.
Proof.
  intros HB.
  assert (Hinit : forall loader,
            DataLoader dataset B = Ok loader ->
            forall config validation_file self,
              batch_size config = B ->
              create_dataloaders config (data dataset) validation_file = Ok self ->
              train_dataloader self = loader).
  { intros loader Hload config vf self HBc. unfold create_dataloaders.
    rewrite HBc.
    replace (mkDataset (data dataset)) with dataset by (destruct dataset; reflexivity).
    rewrite Hload. simpl. destruct vf as [vfile|].
    - destruct (DataLoader (mkDataset vfile) B); simpl; [|discriminate].
      intros H. inversion H. reflexivity.
    - intros H. inversion H. reflexivity. }
  revert Hinit. unfold DataLoader.
  destruct (Z.leb_spec B 0) as [Hle|_]; [lia|]. intros Hinit.
  set (Bn := Z.to_nat B). assert (HBn : 0 < Bn) by (unfold Bn; lia).
  set (M := __len__ dataset).
  eexists. split; [reflexivity|].
  split; [apply Hinit; reflexivity|]. simpl. split; [reflexivity|].
  destruct (@batch_sampler_slices Bn HBn (seq 0 M) [] HBn) as [Hlen Hnth].
  simpl in Hlen, Hnth. rewrite length_seq in Hlen, Hnth.
  split; [rewrite length_map; exact Hlen|].
  intros items Hitems.
  assert (Hsize : length items = M)
    by (apply rmap_nth in Hitems; unfold M, __len__; tauto).
  assert (Hbatch : forall j, j < ceil_div M Bn ->
            nth_error (map (fetch dataset) (batch_sampler Bn (seq 0 M) [])) j =
            Some (Ok (default_collate (firstn Bn (skipn (j * Bn) items))))).
  { intros j Hj. rewrite nth_error_map, (Hnth j Hj). simpl. f_equal.
    rewrite skipn_seq, firstn_seq. simpl. unfold fetch.
    assert (Hstart : j * Bn <= M).
    { rewrite ceil_div_spec in Hj by assumption.
      assert (HM : M = M / Bn * Bn + M mod Bn)
        by (rewrite Nat.mul_comm; apply Nat.div_mod_eq).
      assert (Hmul : j <= M / Bn -> j * Bn <= M / Bn * Bn)
        by (apply Nat.mul_le_mono_r).
      destruct (Nat.eqb_spec (M mod Bn) 0); specialize (Hmul ltac:(lia)); lia. }
    rewrite (@fetch_slice dataset items Hitems) by (fold M; lia). simpl.
    rewrite <- (@firstn_min _ Bn (skipn (j * Bn) items)).
    rewrite length_skipn, Hsize. reflexivity. }
  split; [exact Hbatch|]. split.
  - intros j b Hb.
    destruct (Nat.lt_ge_cases j (ceil_div M Bn)) as [Hj|Hj].
    + rewrite (Hbatch j Hj) in Hb. inversion Hb; subst b.
      unfold batch_len, default_collate. simpl.
      rewrite length_map, length_firstn, length_skipn, Hsize.
      apply slice_size; assumption.
    + assert (Hnone : nth_error (map (fetch dataset)
                                   (batch_sampler Bn (seq 0 M) [])) j = None)
        by (apply nth_error_None; rewrite length_map; lia).
      rewrite Hnone in Hb. discriminate.
  - set (slice := fun j => firstn Bn (skipn (j * Bn) items)).
    exists (map (fun j => default_collate (slice j)) (seq 0 (ceil_div M Bn))).
    assert (Hcat : concat (map slice (seq 0 (ceil_div M Bn))) = items)
      by (apply concat_slices; [assumption | rewrite Hsize; reflexivity]).
    assert (Hfst : concat (map fst (map (fun j => default_collate (slice j))
                                        (seq 0 (ceil_div M Bn)))) = map fst items).
    { rewrite map_map. unfold default_collate. simpl.
      rewrite <- Hcat at 1. rewrite concat_map, map_map. reflexivity. }
    split; [|split; [exact Hfst | split]].
    + apply nth_error_ext. intros j.
      destruct (Nat.lt_ge_cases j (ceil_div M Bn)) as [Hj|Hj].
      * rewrite (Hbatch j Hj), !nth_error_map, nth_error_seq.
        destruct (Nat.ltb_spec j (ceil_div M Bn)); [reflexivity | lia].
      * transitivity (@None (result Batch)); [|symmetry];
          apply nth_error_None; rewrite !length_map, ?length_seq; lia.
    + rewrite map_map. unfold default_collate. simpl.
      rewrite <- Hcat at 1. rewrite concat_map, map_map. reflexivity.
    + match goal with
      | |- list_sum (map batch_len ?bs) = _ =>
          replace (map batch_len bs) with (map (@length string) (map fst bs))
            by (rewrite map_map; reflexivity)
      end.
      rewrite <- length_concat, Hfst, length_map. exact Hsize.
Qed.

End BatchSourceProps.

(** * Concrete runs on the stand-in collaborators *)

Lemma get_reward_last_position_witness :
  Z.of_nat (shape1 (Stub.ids 3)) <= max_sequence_length (Stub.cfg false false)
  /\ exists r,
       get_reward (Stub.cfg false false) (Stub.ids 3) (Stub.ids 3) Stub.initial =
         (Ok r, set_trace [EvBaseModel true] Stub.initial)
       /\ length r = shape0 (Stub.ids 3)
       /\ forall b row, nth_error (rows (Stub.ids 3)) b = Some row ->
            exists v pre, nth_error r b = Some v /\ row = pre ++ [v].
Proof.
  assert (Hlen : Z.of_nat (shape1 (Stub.ids 3))
                 <= max_sequence_length (Stub.cfg false false))
    by (vm_compute; discriminate).
  split; [exact Hlen|].
  apply (proj2 (@get_reward_last_position Stub.collaborators
                  (Stub.cfg false false) (Stub.ids 3) (Stub.ids 3)
                  Stub.initial Hlen)
               (Stub.ids 3) (set_trace [EvBaseModel true] Stub.initial)).
  - reflexivity.
  - split; [reflexivity | repeat constructor].
  - reflexivity.
  - simpl. lia.
Defined.

Lemma get_reward_too_long_witness :
  max_sequence_length (Stub.cfg false false) < Z.of_nat (shape1 (Stub.ids 13))
  /\ get_reward (Stub.cfg false false) (Stub.ids 13) (Stub.ids 13) Stub.initial =
       (Err (SequenceTooLong 13 12), Stub.initial).
Proof.
  split; [reflexivity|].
  apply (@get_reward_too_long Stub.collaborators (Stub.cfg false false)
           (Stub.ids 13) (Stub.ids 13) Stub.initial).
  reflexivity.
Defined.

Lemma deepspeed_forward_pass_unchecked_witness :
  max_sequence_length (Stub.cfg true false) < Z.of_nat (shape1 (Stub.ids 13))
  /\ fst (forward_pass (Stub.cfg true false) (Stub.ids 13) (Stub.ids 13) Stub.initial)
     = Ok [7]
  /\ forward_pass (Stub.cfg false false) (Stub.ids 13) (Stub.ids 13) Stub.initial
     = (Err (SequenceTooLong 13 12), Stub.initial).
Proof.
  split; [reflexivity|]. split.
  - apply (@deepspeed_forward_pass_unchecked Stub.collaborators
             (Stub.cfg true false) (Stub.ids 13) (Stub.ids 13) Stub.initial).
    reflexivity.
  - apply (@deepspeed_forward_pass_unchecked Stub.collaborators
             (Stub.cfg false false) (Stub.ids 13) (Stub.ids 13) Stub.initial).
    reflexivity.
Defined.

Lemma checkpoint_cadence_witness :
  0 < checkpoint_steps (config (Stub.trainer (Stub.cfg false false)))
  /\ fst (train (Stub.trainer (Stub.cfg false false)) Stub.initial) = Ok tt
  /\ saved (snd (train (Stub.trainer (Stub.cfg false false)) Stub.initial))
     - saved Stub.initial = 2
  /\ model_saves (snd (train (Stub.trainer (Stub.cfg false false)) Stub.initial))
     = model_saves Stub.initial + 1.
Proof.
  assert (HN : 0 < checkpoint_steps (config (Stub.trainer (Stub.cfg false false))))
    by (vm_compute; reflexivity).
  assert (Hfst : fst (train (Stub.trainer (Stub.cfg false false)) Stub.initial)
                 = Ok tt)
    by (vm_compute; reflexivity).
  assert (Hrun : train (Stub.trainer (Stub.cfg false false)) Stub.initial =
                 (Ok tt, snd (train (Stub.trainer (Stub.cfg false false))
                                    Stub.initial)))
    by (destruct (train (Stub.trainer (Stub.cfg false false)) Stub.initial);
        simpl in Hfst; subst; reflexivity).
  pose proof (proj2 (@checkpoint_cadence Stub.collaborators
                       (Stub.trainer (Stub.cfg false false)) HN)
                _ _ Hrun) as (Hsaved & _ & Hmodel & _).
  vm_compute in Hsaved. vm_compute in Hmodel.
  split; [exact HN|]. split; [exact Hfst|].
  split; vm_compute; [exact Hsaved | exact Hmodel].
Defined.

Lemma getitem_concatenates_witness :
  - Z.of_nat (__len__ Stub.dataset) <= -1 < Z.of_nat (__len__ Stub.dataset)
  /\ exists e,
       nth_error (data Stub.dataset) 2 = Some e
       /\ __getitem__ Stub.dataset (-1) =
          (x <-? py_float (score e) ;;
           Ok (String.append (user_input e) (completion e), x)).
Proof.
  assert (H : - Z.of_nat (__len__ Stub.dataset) <= -1
              < Z.of_nat (__len__ Stub.dataset))
    by (split; [vm_compute; discriminate | reflexivity]).
  split; [exact H|].
  destruct (@getitem_concatenates Stub.collaborators Stub.dataset (-1) H)
    as (e & Hnth & Hget & _).
  exists e. split; [exact Hnth | exact Hget].
Defined.

Lemma dataloader_partition_witness :
  0 < 2
  /\ exists loader,
       DataLoader Stub.dataset 2 = Ok loader
       /\ dl_batch_size loader = 2
       /\ length (dl_batches loader) = 2%nat.
Proof.
  split; [reflexivity|].
  destruct (@dataloader_partition Stub.collaborators Stub.dataset 2 eq_refl)
    as (loader & Hload & _ & Hsize & Hlen & _).
  exists loader. split; [exact Hload|]. split; [exact Hsize | exact Hlen].
Defined.

(** ** Examples *)

(** With a cadence of three over two epochs of two batches, the only
    checkpoint is saved at the first batch of the second epoch: the counter
    runs across the epoch boundary. *)
Example cadence_spans_epochs :
  filter is_save_checkpoint
    (trace (snd (train (Stub.trainer (mkConfig 12 2 2 1 3 false false false))
                       Stub.initial)))
  = [EvSaveCheckpoint 1 0 2 1].
Proof. vm_compute. reflexivity. Qed.

(** Resuming at step 1 of an epoch processes the second batch only; the
    next epoch processes both. *)
Example resume_at_step_one :
  training_stats
    (snd (train_epoch (Stub.trainer (Stub.cfg false false)) 1 0
            (set_start_step 1 Stub.initial)))
  = [TrainingLoss 9025; ValidationLoss 10404; ValidationLoss 9216]
  /\ processed
       (snd (for_each (train_epoch (Stub.trainer (Stub.cfg false false)) 1) [0; 1]
               (set_start_step 1 Stub.initial))) = 3.
Proof. vm_compute. split; reflexivity. Qed.

(** A batch of empty token sequences has no last position: [get_reward]
    raises after the forward computation. *)
Example get_reward_empty_sequence :
  get_reward (Stub.cfg false false) (Stub.ids 0) (Stub.ids 0) Stub.initial =
    (Err IndexError, set_trace [EvBaseModel true] Stub.initial).
Proof. reflexivity. Qed.

(** Validation on the stand-in: both batches are within the length limit,
    and each records one validation loss. *)
Example validation_on_two_batches :
  fst (validation (Stub.trainer (Stub.cfg false false)) 1 0 Stub.initial) = Ok tt
  /\ training_stats
       (snd (validation (Stub.trainer (Stub.cfg false false)) 1 0 Stub.initial))
     = [ValidationLoss 10202; ValidationLoss 9025].
Proof. vm_compute. split; reflexivity. Qed.

(** The three variants on the same batch: what each calls. *)
Example variants_on_one_batch :
  let run c := filter is_learner_call
                 (trace (snd (train_step c 1 0 0
                               ((["ab"%string], [1]) : @Batch Stub.collaborators)
                               Stub.initial))) in
  run (Stub.cfg true true) = [EvEngineBackward; EvEngineStep]
  /\ run (Stub.cfg false true) =
       [EvZeroGrad; EvAcceleratorBackward; EvOptimizerStep; EvSchedulerStep]
  /\ run (Stub.cfg false false) =
       [EvZeroGrad; EvLossBackward; EvOptimizerStep; EvSchedulerStep].
Proof. vm_compute. repeat split; reflexivity. Qed.

(** The spec's end-to-end dataset: two entries, one batch of two. *)
Example two_entries_one_batch :
  DataLoader (@mkDataset Stub.collaborators (firstn 2 Stub.entries)) 2 =
    Ok (mkDataLoader 2
          [Ok ((["Q: 2+2?4"; "Q: 2+2?five"]%string, [1; 0])
               : @Batch Stub.collaborators)]).
Proof. reflexivity. Qed.

(** * Further properties of the code *)

(** ** The model and single steps *)

Section StepProps.
Context {C : Collaborators}.

(** X1. [forward] has no test on the length: on any input it runs the base
    model exactly once, returns the head applied to its output, and changes
    nothing but the trace; the debug flag only adds a print. *)
Theorem forward_runs_base_model_once (config : ConfigReward)
    (ids mask : Tensor2 Z) (st : TrainerState) :
  fst (forward config ids mask st) =
    (h <-? base_model (weights (learner st)) ids mask ;;
     Ok (head (weights (learner st)) h))
  /\ length (filter is_base_model (trace (snd (forward config ids mask st)))) =
     S (length (filter is_base_model (trace st)))
  /\ set_trace (trace st) (snd (forward config ids mask st)) = st
  /\ (debug config = false ->
      snd (forward config ids mask st) =
      set_trace (trace st ++ [EvBaseModel (grad_enabled st)]) st).
Proof.
  rewrite forward_run. simpl. unfold forward_events.
  split; [reflexivity|]. split; [|split].
  - rewrite filter_app, length_app. simpl.
    destruct (base_model (weights (learner st)) ids mask), (debug config);
      simpl; lia.
  - destruct st; reflexivity.
  - intros Hd. rewrite Hd.
    destruct (base_model (weights (learner st)) ids mask); reflexivity.
Qed.

(** X5. In validation the texts are tokenized without truncation: a first
    validation batch longer than [max_sequence_length] makes the validation
    phase raise the length error before any forward computation and before
    any loss is recorded, and no epoch of a trainer with validation can
    complete. *)
Theorem validation_too_long_aborts (self : RewardTrainer) (n_iter epoch : Z)
    (loader : DataLoaderT) (b : Batch) (rest : list (result Batch)) :
  validation_dataloader self = Some loader ->
  dl_batches loader = Ok b :: rest ->
  max_sequence_length (config self) <
    Z.of_nat (shape1 (fst (tokenizer false (fst b)))) ->
  (forall st,
     validation self n_iter epoch st =
       (Err (SequenceTooLong (shape1 (fst (tokenizer false (fst b))))
                             (max_sequence_length (config self))),
        set_trace (trace st ++ [EvModelEval]) (set_training_mode false st)))
  /\ (validation_flag self = true ->
      forall st, is_ok (fst (train_epoch self n_iter epoch st)) = false).
Proof.
  intros Hloader Hbatches Hlong.
  assert (Hval : forall st,
     validation self n_iter epoch st =
       (Err (SequenceTooLong (shape1 (fst (tokenizer false (fst b))))
                             (max_sequence_length (config self))),
        set_trace (trace st ++ [EvModelEval]) (set_training_mode false st))).
  { intros st. unfold validation, bind, modify, no_grad.
    rewrite Hloader, Hbatches, for_enumerate_cons, validation_step_run.
    cbv zeta. unfold reward_value, get_reward_events.
    destruct (Z.gtb_spec (Z.of_nat (shape1 (fst (tokenizer false (fst b)))))
                         (max_sequence_length (config self))); [|lia].
    destruct st; unfold set_trace; simpl. rewrite app_nil_r. reflexivity. }
  split; [exact Hval|].
  intros Hvf st. unfold train_epoch. unfold bind at 1. unfold modify at 1.
  unfold bind at 1.
  match goal with
  | |- context [for_enumerate ?f 0 ?l ?s] =>
      destruct (for_enumerate f 0 l s) as [[[]|e] st1]; [|reflexivity]
  end.
  unfold bind at 1. rewrite Hvf, Hval. reflexivity.
Qed.

(** X3. A training step whose forward pass raises stops there with that
    error: no loss is recorded, the learner is not updated, the checkpoint
    counter does not move; only the trace of the forward pass is left. *)
Theorem failed_forward_pass_updates_nothing (config : ConfigReward)
    (n_iter epoch i : Z) (inputs : Batch) (st : TrainerState) (e : PyError) :
  fst (forward_pass config (fst (tokenizer true (fst inputs)))
                    (snd (tokenizer true (fst inputs))) st) = Err e ->
  train_step config n_iter epoch i inputs st =
    (Err e, snd (forward_pass config (fst (tokenizer true (fst inputs)))
                              (snd (tokenizer true (fst inputs))) st))
  /\ set_trace (trace st) (snd (train_step config n_iter epoch i inputs st)) = st.
Proof.
  rewrite train_step_run, forward_pass_run. simpl fst. cbv zeta.
  intros Hf. rewrite Hf. simpl. split; [reflexivity|].
  destruct st; reflexivity.
Qed.

End StepProps.

Section IndexProps.
Context {C : Collaborators}.

(** X7. An index outside [-len, len) makes [__getitem__] raise
    [IndexError]; on an empty store every index does. *)
Theorem getitem_out_of_range (self : RewardDataset) (idx : Z) :
  idx < - Z.of_nat (__len__ self) \/ Z.of_nat (__len__ self) <= idx ->
  __getitem__ self idx = Err IndexError.
Proof.
  intros Hout. unfold __getitem__.
  rewrite py_index_out_of_range by exact Hout. reflexivity.
Qed.

(** X8. A negative index counts from the end: for [0 <= i < len],
    [__getitem__ (i - len)] is [__getitem__ i]. *)
Theorem getitem_negative_index (self : RewardDataset) (i : Z) :
  0 <= i < Z.of_nat (__len__ self) ->
  __getitem__ self (i - Z.of_nat (__len__ self)) = __getitem__ self i.
Proof.
  intros Hi. unfold __getitem__, __len__ in *.
  assert (Hidx : py_index (data self) (i - Z.of_nat (length (data self))) =
                 py_index (data self) i).
  { unfold py_index.
    destruct (Z.ltb_spec (i - Z.of_nat (length (data self))) 0); [|lia].
    destruct (Z.ltb_spec i 0); [lia|].
    replace (i - Z.of_nat (length (data self)) + Z.of_nat (length (data self)))
      with i by lia.
    reflexivity. }
  rewrite Hidx. reflexivity.
Qed.

Local Open Scope nat_scope.

Lemma slice_start_lt M B j : 0 < B -> j < ceil_div M B -> j * B < M.
Proof.
  intros HB Hj. rewrite ceil_div_spec in Hj by assumption.
  assert (HM : M = M / B * B + M mod B)
    by (rewrite Nat.mul_comm; apply Nat.div_mod_eq).
  assert (Hmul : j <= M / B -> j * B <= M / B * B)
    by (apply Nat.mul_le_mono_r).
  assert (Hmul' : S j <= M / B -> S j * B <= M / B * B)
    by (apply Nat.mul_le_mono_r).
  simpl in Hmul'.
  destruct (Nat.eqb_spec (M mod B) 0).
  - specialize (Hmul' ltac:(lia)). lia.
  - specialize (Hmul ltac:(lia)). lia.
Qed.

(** Fetching consecutive indices reads the corresponding entries. *)
Lemma fetch_range dataset :
  forall len a,
    a + len <= __len__ dataset ->
    rmap (fun i => __getitem__ dataset (Z.of_nat i)) (seq a len) =
    rmap sample_of (firstn len (skipn a (data dataset))).
Proof.
  unfold __len__. induction len as [|len IH]; intros a Ha; [reflexivity|].
  destruct (nth_error (data dataset) a) as [e|] eqn:He;
    [|apply nth_error_None in He; lia].
  assert (Hget : __getitem__ dataset (Z.of_nat a) = sample_of e).
  { apply getitem_sample. unfold py_index.
    destruct (Z.ltb_spec (Z.of_nat a) 0); [lia|].
    destruct (Z.ltb_spec (Z.of_nat a) 0); [lia|].
    destruct (Z.leb_spec (Z.of_nat (length (data dataset))) (Z.of_nat a));
      [lia|].
    simpl. rewrite Nat2Z.id, He. reflexivity. }
  rewrite (@skipn_nth_error _ _ _ _ He). simpl.
  rewrite Hget, IH by lia. reflexivity.
Qed.

(** The batch of index [j], from the entries of its slice only. *)
Lemma dataloader_batch_at dataset B j :
  0 < B ->
  j < ceil_div (__len__ dataset) B ->
  nth_error (map (fetch dataset)
               (batch_sampler B (seq 0 (__len__ dataset)) [])) j =
  Some (items <-? rmap sample_of (firstn B (skipn (j * B) (data dataset))) ;;
        Ok (default_collate items)).
Proof.
  intros HB Hj.
  destruct (@batch_sampler_slices B HB (seq 0 (__len__ dataset)) [] HB)
    as [_ Hnth].
  simpl in Hnth. rewrite length_seq in Hnth.
  rewrite nth_error_map, (Hnth j Hj). simpl. f_equal.
  rewrite skipn_seq, firstn_seq. simpl. unfold fetch.
  pose proof (@slice_start_lt _ _ _ HB Hj) as Hstart.
  rewrite fetch_range by lia.
  rewrite <- (@firstn_min _ B (skipn (j * B) (data dataset))).
  rewrite length_skipn. reflexivity.
Qed.

(** X9. Batches are fetched one by one: batch [j] is read from the entries
    [j * B .. j * B + B - 1] alone, so an entry whose score cannot be
    converted fails its own batch and no other. *)
Theorem dataloader_batch_local (dataset : RewardDataset) (B : Z) :
  (0 < B)%Z ->
  exists loader,
    DataLoader dataset B = Ok loader
    /\ forall j,
         j < ceil_div (__len__ dataset) (Z.to_nat B) ->
         nth_error (dl_batches loader) j =
         Some (items <-? rmap sample_of
                           (firstn (Z.to_nat B)
                                   (skipn (j * Z.to_nat B) (data dataset))) ;;
               Ok (default_collate items)).
Proof.
  intros HB. unfold DataLoader.
  destruct (Z.leb_spec B 0); [lia|].
  eexists. split; [reflexivity|]. simpl.
  intros j Hj. apply dataloader_batch_at; [lia | assumption].
Qed.

(** The data loader never yields an empty batch: every batch that
    loads holds between one and [B] texts with as many scores, and an empty
    store yields no batch at all. *)
Lemma dataloader_batches_nonempty (dataset : RewardDataset) (B : Z) :
  (0 < B)%Z ->
  exists loader,
    DataLoader dataset B = Ok loader
    /\ (forall j b,
          nth_error (dl_batches loader) j = Some (Ok b) ->
          1 <= batch_len b <= Z.to_nat B
          /\ length (snd b) = batch_len b)
    /\ (__len__ dataset = 0 -> dl_batches loader = []).
Proof.
  intros HB. unfold DataLoader.
  destruct (Z.leb_spec B 0); [lia|].
  set (Bn := Z.to_nat B). assert (HBn : 0 < Bn) by (unfold Bn; lia).
  eexists. split; [reflexivity|]. simpl.
  destruct (@batch_sampler_slices Bn HBn (seq 0 (__len__ dataset)) [] HBn)
    as [Hlen _].
  simpl in Hlen. rewrite length_seq in Hlen.
  split.
  - intros j b Hb.
    destruct (Nat.lt_ge_cases j (ceil_div (__len__ dataset) Bn)) as [Hj|Hj].
    + rewrite (@dataloader_batch_at dataset _ _ HBn Hj) in Hb.
      pose proof (@slice_start_lt _ _ _ HBn Hj) as Hstart.
      destruct (rmap sample_of (firstn Bn (skipn (j * Bn) (data dataset))))
        as [items|e] eqn:Hitems; simpl in Hb; [|discriminate].
      inversion Hb; subst b. apply rmap_nth in Hitems.
      destruct Hitems as [Hsize _].
      unfold batch_len, default_collate. simpl.
      rewrite !length_map, Hsize, length_firstn, length_skipn.
      unfold __len__ in *. lia.
    + assert (Hnone : nth_error (map (fetch dataset)
                         (batch_sampler Bn (seq 0 (__len__ dataset)) [])) j = None)
        by (apply nth_error_None; rewrite length_map; lia).
      rewrite Hnone in Hb. discriminate.
  - intros Hempty. apply length_zero_iff_nil.
    rewrite length_map, Hlen, Hempty. apply ceil_div_0. exact HBn.
Qed.

End IndexProps.

(** ** Whole runs of [train] *)

Section RunProps.
Context {C : Collaborators}.

(** [train] in closed form: the division, the loaded checkpoint, the epoch
    loop, the final save. *)
Lemma train_run self st :
  train self st =
    if effective_batch_size self =? 0 then
      (Err ZeroDivisionError,
       set_trace (trace st ++ [EvLog LogStart; EvSetupLogs]) st)
    else
      match for_each (train_epoch self
                        (Z.quot (Z.of_nat (__len__ (train_dataset self)))
                                (effective_batch_size self)))
                     (train_epochs_list self st) (train_start st) with
      | (Ok _, st2) =>
          (Ok tt, set_trace (trace st2 ++ [EvModelSave; EvLog LogFinished]) st2)
      | (Err e, st2) => (Err e, st2)
      end.
Proof.
  unfold train, effective_batch_size, train_epochs_list, train_start.
  unfold bind at 1. unfold emit at 1, modify at 1.
  unfold bind at 1. unfold emit at 1, modify at 1.
  unfold bind at 1. unfold lift, py_int_div.
  match goal with
  | |- context [if ?b =? 0 then Err _ else _] => destruct (b =? 0)
  end.
  - destruct st; unfold set_trace; simpl. rewrite <- app_assoc. reflexivity.
  - unfold bind at 1.
    destruct st as [l stats g tm cnt ss tr]; simpl.
    destruct (load_checkpoint l stats) as [[start l0] stats0]. simpl.
    unfold bind at 1. unfold modify at 1.
    unfold bind at 1. unfold modify at 1.
    unfold bind at 1.
    unfold set_cnt_checkpoints, set_start_step, set_trace, set_training_stats,
      set_learner. simpl. rewrite <- !app_assoc. simpl.
    match goal with
    | |- context [for_each ?b ?es ?s] => destruct (for_each b es s) as [[[]|e] st2]
    end; [|reflexivity].
    destruct st2. unfold bind, emit, modify, set_trace. simpl.
    rewrite <- app_assoc. reflexivity.
Qed.

Lemma extends_refl vf st : extends vf st st.
Proof.
  split; [|split]; [exists [] | exists [] | reflexivity];
    rewrite app_nil_r; auto.
Qed.

Lemma extends_trans vf st1 st2 st3 :
  extends vf st1 st2 -> extends vf st2 st3 -> extends vf st1 st3.
Proof.
  intros ((e1 & He1 & Hp1) & (n1 & Hn1 & Hq1) & Hg1)
         ((e2 & He2 & Hp2) & (n2 & Hn2 & Hq2) & Hg2).
  split; [|split].
  - exists (e1 ++ e2). rewrite He2, He1, app_assoc.
    split; [reflexivity | apply Forall_app; auto].
  - exists (n1 ++ n2). rewrite Hn2, Hn1, app_assoc.
    split; [reflexivity | apply Forall_app; auto].
  - congruence.
Qed.

Lemma keeps_ret vf {A} (a : A) : keeps vf (ret a).
Proof. intros st. apply extends_refl. Qed.

Lemma keeps_lift vf {A} (r : result A) : keeps vf (lift r).
Proof. intros st. apply extends_refl. Qed.

Lemma keeps_bind vf {A B} (m : M A) (k : A -> M B) :
  keeps vf m -> (forall a, keeps vf (k a)) -> keeps vf (bind m k).
Proof.
  intros Hm Hk st. unfold bind. specialize (Hm st).
  destruct (m st) as [[a|e] st1]; simpl in *; [|assumption].
  eapply extends_trans; [eassumption | apply Hk].
Qed.

Lemma keeps_for_enumerate vf {A} (body : Z -> A -> M unit) :
  (forall i x, keeps vf (body i x)) ->
  forall loader i, keeps vf (for_enumerate body i loader).
Proof.
  intros Hbody loader. induction loader as [|r rest IH]; intros i.
  - apply keeps_ret.
  - simpl. apply keeps_bind; [apply keeps_lift|]. intros x.
    apply keeps_bind; [apply Hbody|]. intros u. apply IH.
Qed.

Lemma keeps_for_each vf {A} (body : A -> M unit) :
  (forall x, keeps vf (body x)) -> forall l, keeps vf (for_each body l).
Proof.
  intros Hbody l. induction l as [|x rest IH].
  - apply keeps_ret.
  - simpl. apply keeps_bind; [apply Hbody|]. intros u. apply IH.
Qed.

Lemma forward_pass_events_epoch vf config g w ids mask :
  Forall (epoch_event vf) (forward_pass_events config g w ids mask).
Proof.
  unfold forward_pass_events, get_reward_events, forward_events.
  destruct (deepspeed_enable config),
    (Z.of_nat (shape1 ids) >? max_sequence_length config),
    (base_model w ids mask), (debug config); repeat constructor.
Qed.

Lemma variant_calls_epoch vf (v : Variant) :
  Forall (epoch_event vf) (@variant_calls C v).
Proof. destruct v; repeat constructor. Qed.

Lemma train_log_epoch vf config n_iter epoch i est score loss :
  Forall (epoch_event vf) (train_log config n_iter epoch i est score loss).
Proof.
  unfold train_log. destruct (i mod iteration_per_print config =? 0);
    repeat constructor.
Qed.

Lemma keeps_train_step vf config n_iter epoch i inputs :
  keeps vf (train_step config n_iter epoch i inputs).
Proof.
  intros st.
  pose proof (forward_pass_events_epoch vf config (grad_enabled st)
                (weights (learner st)) (fst (tokenizer true (fst inputs)))
                (snd (tokenizer true (fst inputs)))) as Hf.
  pose proof (variant_calls_epoch vf (select_variant config)) as Hv.
  revert Hf.
  train_step_cases config st; intros Hf;
    (split; [|split; [|reflexivity]]);
    try (eexists; split; [rewrite <- ?app_assoc; reflexivity|];
         rewrite ?Forall_app; repeat split;
         solve [assumption | apply train_log_epoch | repeat constructor]).
  exists []. simpl. rewrite app_nil_r. split; [reflexivity | constructor].
Qed.

Lemma keeps_train_iteration vf config n_iter epoch i inputs :
  keeps vf (train_iteration config n_iter epoch i inputs).
Proof.
  intros st. unfold train_iteration, bind, gets.
  destruct (i <? start_step st); [apply extends_refl | apply keeps_train_step].
Qed.

Lemma keeps_validation self n_iter epoch :
  keeps true (validation self n_iter epoch).
Proof.
  intros st.
  destruct (validation_frame self n_iter epoch st)
    as ((_ & _ & _ & Hg) & (evs & Htr & Hevs) & (ls & Hst & _) & _).
  split; [|split; [|assumption]].
  - exists evs. split; [assumption|].
    eapply Forall_impl; [|exact Hevs].
    intros e He. destruct e; simpl in *; auto; contradiction.
  - exists (map ValidationLoss ls). split; [assumption|].
    clear. induction ls; constructor; simpl; auto.
Qed.

Lemma keeps_train_epoch self n_iter epoch :
  keeps (validation_flag self) (train_epoch self n_iter epoch).
Proof.
  unfold train_epoch. apply keeps_bind.
  { intros st. destruct st. split; [|split; [|reflexivity]]; simpl.
    - exists [EvModelTrain]. split; [reflexivity | repeat constructor].
    - exists []. rewrite app_nil_r. split; [reflexivity | constructor]. }
  intros u1. apply keeps_bind.
  { apply keeps_for_enumerate. intros i x. apply keeps_train_iteration. }
  intros u2. apply keeps_bind.
  { destruct (validation_flag self); [apply keeps_validation | apply keeps_ret]. }
  intros u3 st. destruct st. split; [|split; [|reflexivity]]; simpl;
    exists []; rewrite app_nil_r; split; auto.
Qed.

End RunProps.

Section TrainProps.
Context {C : Collaborators}.

(** The epoch loop of [train] only extends the state it starts in. *)
Lemma train_loop_extends self n_iter es st :
  extends (validation_flag self) st
          (snd (for_each (train_epoch self n_iter) es st)).
Proof.
  apply keeps_for_each. intros e. apply keeps_train_epoch.
Qed.

Lemma epoch_event_quiet vf (evs : list (Event F)) :
  Forall (epoch_event vf) evs ->
  filter is_model_save evs = []
  /\ (vf = false -> ~ In EvModelEval evs).
Proof.
  induction 1 as [|e evs He _ [IH1 IH2]]; [split; auto|].
  split.
  - destruct e; simpl in *; auto; contradiction.
  - intros Hvf [Heq|Hin]; [|apply (IH2 Hvf Hin)].
    subst e. simpl in He. congruence.
Qed.

Lemma epoch_stat_training (new : list (Stat F)) :
  Forall (epoch_stat false) new -> filter is_validation_loss new = [].
Proof.
  induction 1 as [|s new Hs _ IH]; [reflexivity|].
  destruct s; simpl in *; [assumption | discriminate].
Qed.

(** X10. [train] only appends: whatever its outcome, the trace it leaves
    extends the one it started with, and the statistics are either untouched
    (the run stopped before loading the checkpoint) or the statistics the
    checkpoint restored followed by the records of this run. *)
Theorem train_append_only (self : RewardTrainer) (st : TrainerState) :
  (exists evs, trace (snd (train self st)) = trace st ++ evs)
  /\ (training_stats (snd (train self st)) = training_stats st
      \/ exists new,
           training_stats (snd (train self st)) =
           snd (load_checkpoint (learner st) (training_stats st)) ++ new).
Proof.
  rewrite train_run.
  destruct (effective_batch_size self =? 0).
  - destruct st; simpl. split; [eexists; reflexivity | left; reflexivity].
  - destruct (train_loop_extends self
                (Z.quot (Z.of_nat (__len__ (train_dataset self)))
                        (effective_batch_size self))
                (train_epochs_list self st) (train_start st))
      as ((evs & Htr & _) & (new & Hst & _) & _).
    destruct (for_each _ _ (train_start st)) as [[[]|e] st2]; simpl in *.
    + destruct st2; simpl in *. split.
      * eexists. rewrite Htr, <- !app_assoc. reflexivity.
      * right. exists new. exact Hst.
    + split.
      * eexists. rewrite Htr, <- !app_assoc. reflexivity.
      * right. exists new. exact Hst.
Qed.

(** X11. [train] leaves torch's gradient mode as it found it, whether it
    completes or raises; so does every epoch. *)
Theorem train_restores_grad_mode (self : RewardTrainer) (n_iter epoch : Z)
    (st : TrainerState) :
  grad_enabled (snd (train self st)) = grad_enabled st
  /\ grad_enabled (snd (train_epoch self n_iter epoch st)) = grad_enabled st.
Proof.
  split.
  - rewrite train_run.
    destruct (effective_batch_size self =? 0); [destruct st; reflexivity|].
    destruct (train_loop_extends self
                (Z.quot (Z.of_nat (__len__ (train_dataset self)))
                        (effective_batch_size self))
                (train_epochs_list self st) (train_start st))
      as (_ & _ & Hg).
    destruct (for_each _ _ (train_start st)) as [[[]|e] st2]; simpl in *;
      [destruct st2; simpl in *|]; rewrite Hg; reflexivity.
  - apply (keeps_train_epoch self n_iter epoch st).
Qed.

(** X12. The final model is saved exactly when the run completes: a run
    that raises, at any point, leaves the number of model saves as it was. *)
Theorem model_saved_iff_completed (self : RewardTrainer) (st : TrainerState) :
  model_saves (snd (train self st)) =
  model_saves st + (if is_ok (fst (train self st)) then 1 else 0).
Proof.
  rewrite train_run. unfold model_saves.
  destruct (effective_batch_size self =? 0).
  - destruct st; simpl. rewrite filter_app. simpl. rewrite app_nil_r. lia.
  - destruct (train_loop_extends self
                (Z.quot (Z.of_nat (__len__ (train_dataset self)))
                        (effective_batch_size self))
                (train_epochs_list self st) (train_start st))
      as ((evs & Htr & Hevs) & _ & _).
    destruct (@epoch_event_quiet _ _ Hevs) as [Hq _].
    destruct (for_each _ _ (train_start st)) as [[[]|e] st2]; simpl in *.
    + destruct st2; simpl in *. rewrite Htr, !filter_app, Hq. simpl.
      rewrite !app_nil_r, length_app. simpl. lia.
    + rewrite Htr, !filter_app, Hq. simpl. rewrite !app_nil_r. lia.
Qed.

(** X13. Without a validation dataset, [train] never switches the model to
    evaluation mode and records no validation loss, whatever its outcome. *)
Theorem no_validation_without_dataset (self : RewardTrainer) (st : TrainerState) :
  validation_flag self = false ->
  (exists evs, trace (snd (train self st)) = trace st ++ evs
               /\ ~ In EvModelEval evs)
  /\ (training_stats (snd (train self st)) = training_stats st
      \/ exists new,
           training_stats (snd (train self st)) =
           snd (load_checkpoint (learner st) (training_stats st)) ++ new
           /\ filter is_validation_loss new = []).
Proof.
  intros Hvf. rewrite train_run.
  destruct (effective_batch_size self =? 0).
  - destruct st; simpl. split; [|left; reflexivity].
    eexists. split; [reflexivity|]. simpl. intros [H|[H|[]]]; discriminate.
  - destruct (train_loop_extends self
                (Z.quot (Z.of_nat (__len__ (train_dataset self)))
                        (effective_batch_size self))
                (train_epochs_list self st) (train_start st))
      as ((evs & Htr & Hevs) & (new & Hst & Hnew) & _).
    rewrite Hvf in Hevs, Hnew.
    destruct (@epoch_event_quiet _ _ Hevs) as [_ Hq]. specialize (Hq eq_refl).
    pose proof (@epoch_stat_training _ Hnew) as Hval.
    destruct (for_each _ _ (train_start st)) as [[[]|e] st2]; simpl in *.
    + destruct st2; simpl in *. split.
      * eexists. rewrite Htr, <- !app_assoc. split; [reflexivity|].
        rewrite !in_app_iff. simpl.
        intros [[H|[H|[H|[]]]]|[Hin|[H|[H|[]]]]]; try discriminate.
        apply Hq, Hin.
      * right. exists new. auto.
    + split.
      * eexists. rewrite Htr, <- !app_assoc. split; [reflexivity|].
        rewrite !in_app_iff. simpl.
        intros [[H|[H|[H|[]]]]|Hin]; try discriminate.
        apply Hq, Hin.
      * right. exists new. auto.
Qed.

(** X14. When the epochs of the checkpoint are already done, [train] runs no
    epoch: it restores the checkpoint, saves the model and finishes. *)
Theorem train_no_epoch_left (self : RewardTrainer) (st : TrainerState) :
  effective_batch_size self <> 0 ->
  epochs (config self) <=
    fst (fst (fst (load_checkpoint (learner st) (training_stats st)))) ->
  fst (train self st) = Ok tt
  /\ learner (snd (train self st)) =
     snd (fst (load_checkpoint (learner st) (training_stats st)))
  /\ training_stats (snd (train self st)) =
     snd (load_checkpoint (learner st) (training_stats st))
  /\ trace (snd (train self st)) =
     trace st ++ [EvLog LogStart; EvSetupLogs; EvLoadCheckpoint;
                  EvModelSave; EvLog LogFinished].
Proof.
  intros Hbs Hdone. rewrite train_run.
  destruct (Z.eqb_spec (effective_batch_size self) 0) as [|_]; [contradiction|].
  unfold train_epochs_list, py_range.
  replace (Z.to_nat (epochs (config self) -
             fst (fst (fst (load_checkpoint (learner st) (training_stats st))))))
    with 0%nat by lia.
  simpl. repeat split. rewrite <- app_assoc. reflexivity.
Qed.

(** X15. [train] divides by the batch size before it loads the checkpoint:
    with a batch size of zero it raises [ZeroDivisionError] there, having
    only logged the start and set up the logs; with any other batch size it
    always gets to load the checkpoint. *)
Theorem train_zero_batch_size (self : RewardTrainer) (st : TrainerState) :
  if effective_batch_size self =? 0 then
    train self st =
      (Err ZeroDivisionError,
       set_trace (trace st ++ [EvLog LogStart; EvSetupLogs]) st)
  else
    exists evs,
      trace (snd (train self st)) =
      trace st ++ [EvLog LogStart; EvSetupLogs; EvLoadCheckpoint] ++ evs.
Proof.
  rewrite train_run.
  destruct (effective_batch_size self =? 0); [reflexivity|].
  destruct (train_loop_extends self
              (Z.quot (Z.of_nat (__len__ (train_dataset self)))
                      (effective_batch_size self))
              (train_epochs_list self st) (train_start st))
    as ((evs & Htr & _) & _ & _).
  destruct (for_each _ _ (train_start st)) as [[[]|e] st2]; simpl in *.
  - destruct st2; simpl in *. eexists. rewrite Htr, <- !app_assoc.
    reflexivity.
  - eexists. rewrite Htr, <- !app_assoc. reflexivity.
Qed.

End TrainProps.

(** ** Counting the batches of a run *)

Section CountProps.
Context {C : Collaborators}.

Lemma train_step_counts config n_iter epoch i inputs st st' :
  train_step config n_iter epoch i inputs st = (Ok tt, st') ->
  processed st' = processed st + 1 /\ validated st' = validated st.
Proof.
  unfold processed, validated.
  train_step_cases config st; intros Hrun; try discriminate;
    inversion Hrun; subst st'; simpl;
    rewrite !filter_app, !length_app; simpl; lia.
Qed.

Lemma resume_loop_counts config n_iter epoch loader :
  forall skip i st st',
    resume_loop (train_step config n_iter epoch) skip i loader st = (Ok tt, st') ->
    processed st' = processed st + Z.of_nat (length loader - skip)
    /\ validated st' = validated st.
Proof.
  induction loader as [|r rest IH]; intros skip i st st' Hrun; simpl in Hrun.
  - inversion Hrun; subst. simpl. lia.
  - unfold bind at 1 in Hrun. unfold lift in Hrun.
    destruct r as [x|e]; [|discriminate].
    destruct skip as [|k].
    + unfold bind in Hrun.
      destruct (train_step config n_iter epoch i x st) as [[[]|e] st1] eqn:Hs;
        [|discriminate].
      apply train_step_counts in Hs. destruct Hs as [Hp Hv].
      destruct (IH _ _ _ _ Hrun) as [Hp' Hv'].
      simpl length. rewrite Hp', Hv', Hp, Hv. lia.
    + destruct (IH _ _ _ _ Hrun) as [Hp' Hv']. simpl length.
      rewrite Hp', Hv'. split; [|reflexivity]. f_equal.
Qed.

Lemma validation_counts_ok self n_iter epoch st st' :
  validation_flag self = true ->
  validation self n_iter epoch st = (Ok tt, st') ->
  processed st' = processed st
  /\ validated st' = validated st + Z.of_nat (validation_batches self).
Proof.
  intros Hvf Hrun. unfold validation_batches. rewrite Hvf.
  destruct (validation_counts self n_iter epoch st) as (Hp & _ & _).
  destruct (validation_frame self n_iter epoch st)
    as (_ & _ & (ls & Hst & Hlen) & _).
  rewrite Hrun in *. simpl in *. split; [assumption|].
  destruct (validation_dataloader self) as [loader|] eqn:Hl.
  - destruct (Hlen loader eq_refl) as [_ Hall]. rewrite <- (Hall eq_refl).
    unfold validated. rewrite Hst, filter_app, length_app.
    replace (filter is_validation_loss (map ValidationLoss ls))
      with (map (@ValidationLoss F) ls)
      by (clear; induction ls; simpl; congruence).
    rewrite length_map. lia.
  - revert Hrun. unfold validation, bind, modify, no_grad. rewrite Hl.
    unfold raise. discriminate.
Qed.

Lemma epoch_from_counts self n_iter skip epoch st st' :
  epoch_from self n_iter skip epoch st = (Ok tt, st') ->
  processed st' =
    processed st + Z.of_nat (length (dl_batches (train_dataloader self)) - skip)
  /\ validated st' = validated st + Z.of_nat (validation_batches self).
Proof.
  unfold epoch_from. unfold bind at 1. unfold modify at 1.
  unfold bind at 1.
  match goal with
  | |- context [resume_loop ?b ?k ?i ?l ?s] =>
      destruct (resume_loop b k i l s) as [[[]|e] st1] eqn:Hloop;
        [|discriminate]
  end.
  apply resume_loop_counts in Hloop. destruct Hloop as [Hp Hv].
  assert (Hp1 : processed st1 =
                processed st +
                Z.of_nat (length (dl_batches (train_dataloader self)) - skip))
    by (rewrite Hp; destruct st; reflexivity).
  assert (Hv1 : validated st1 = validated st)
    by (rewrite Hv; destruct st; reflexivity).
  clear Hp Hv. unfold bind at 1.
  destruct (validation_flag self) eqn:Hvf.
  - destruct (validation self n_iter epoch st1) as [[[]|e] st2] eqn:Hval;
      [|discriminate].
    apply validation_counts_ok in Hval; [|exact Hvf]. destruct Hval as [Hp2 Hv2].
    unfold modify. intros H. inversion H; subst st'.
    destruct st2; unfold processed, validated in *; simpl in *. lia.
  - unfold ret, modify. intros H. inversion H; subst st'.
    unfold validation_batches. rewrite Hvf.
    destruct st1; unfold processed, validated in *; simpl in *. lia.
Qed.

Lemma epochs_fresh_counts self n_iter es :
  forall st st',
    for_each (epoch_from self n_iter 0) es st = (Ok tt, st') ->
    processed st' =
      processed st +
      Z.of_nat (length es * length (dl_batches (train_dataloader self)))
    /\ validated st' =
       validated st + Z.of_nat (length es * validation_batches self).
Proof.
  induction es as [|e es IH]; intros st st' Hrun; simpl in Hrun.
  - inversion Hrun; subst. simpl. lia.
  - unfold bind in Hrun.
    destruct (epoch_from self n_iter 0 e st) as [[[]|err] st1] eqn:He;
      [|discriminate].
    apply epoch_from_counts in He. destruct He as [Hp Hv].
    destruct (IH _ _ Hrun) as [Hp' Hv']. simpl length.
    rewrite Hp', Hv', Hp, Hv. lia.
Qed.

(** X16. A run that completes has trained on every batch of every epoch
    left, once each, apart from the batches the resume point skips in the
    first of these epochs, and has validated on every validation batch once
    per epoch. *)
Theorem train_processes_every_batch (self : RewardTrainer)
    (st st' : TrainerState) :
  train self st = (Ok tt, st') ->
  processed st' -
    Z.of_nat (length (filter is_training_loss
                        (snd (load_checkpoint (learner st) (training_stats st)))))
  = Z.of_nat
      (batches_to_process
         (length (dl_batches (train_dataloader self)))
         (Z.to_nat (snd (fst (fst (load_checkpoint (learner st)
                                                   (training_stats st))))))
         (Z.to_nat (epochs (config self) -
                    fst (fst (fst (load_checkpoint (learner st)
                                                   (training_stats st)))))))
  /\ validated st' -
       Z.of_nat (length (filter is_validation_loss
                           (snd (load_checkpoint (learner st) (training_stats st)))))
     = Z.of_nat
         (Z.to_nat (epochs (config self) -
                    fst (fst (fst (load_checkpoint (learner st)
                                                   (training_stats st)))))
          * validation_batches self).
Proof.
  rewrite train_run.
  destruct (effective_batch_size self =? 0); [discriminate|].
  set (n_iter := Z.quot (Z.of_nat (__len__ (train_dataset self)))
                        (effective_batch_size self)).
  unfold train_epochs_list, py_range.
  set (k := Z.to_nat (epochs (config self) -
               fst (fst (fst (load_checkpoint (learner st) (training_stats st)))))).
  set (se := fst (fst (fst (load_checkpoint (learner st) (training_stats st))))).
  assert (Hlen : length (map (fun j => se + Z.of_nat j) (seq 0 k)) = k)
    by (rewrite length_map, length_seq; reflexivity).
  destruct (map (fun j => se + Z.of_nat j) (seq 0 k)) as [|e es] eqn:Hes.
  - simpl. intros H. inversion H; subst st'. simpl in Hlen. rewrite <- Hlen.
    unfold processed, validated, train_start. simpl. lia.
  - simpl for_each. unfold bind at 1. rewrite train_epoch_resume.
    destruct (epoch_from self n_iter (Z.to_nat (start_step (train_start st))) e
                (train_start st)) as [[[]|err] st1] eqn:He; [|discriminate].
    pose proof He as Hzero. apply epoch_from_resets in Hzero.
    apply epoch_from_counts in He. destruct He as [Hp Hv].
    rewrite train_epochs_fresh by exact Hzero.
    destruct (for_each (epoch_from self n_iter 0) es st1) as [[[]|err] st2] eqn:Hrest;
      [|discriminate].
    apply epochs_fresh_counts in Hrest. destruct Hrest as [Hp' Hv'].
    intros H. inversion H; subst st'. simpl in Hlen. rewrite <- Hlen.
    assert (Hp2 : processed (set_trace (trace st2 ++ [EvModelSave; EvLog LogFinished]) st2)
                  = processed st2) by (destruct st2; reflexivity).
    assert (Hv2 : validated (set_trace (trace st2 ++ [EvModelSave; EvLog LogFinished]) st2)
                  = validated st2) by (destruct st2; reflexivity).
    rewrite Hp2, Hv2, Hp', Hv', Hp, Hv.
    unfold processed, validated, train_start, batches_to_process. simpl.
    lia.
Qed.

(** X4. With [iteration_per_print] or [checkpoint_steps] equal to zero no
    training step completes: a step whose forward pass succeeds raises
    [ZeroDivisionError] after it has recorded the loss and updated the
    learner, and without saving a checkpoint. *)
Theorem zero_period_raises (config : ConfigReward) (n_iter epoch i : Z)
    (inputs : Batch) (st : TrainerState) :
  iteration_per_print config = 0 \/ checkpoint_steps config = 0 ->
  is_ok (fst (train_step config n_iter epoch i inputs st)) = false
  /\ forall est_output,
       fst (forward_pass config (fst (tokenizer true (fst inputs)))
                         (snd (tokenizer true (fst inputs))) st) = Ok est_output ->
       fst (train_step config n_iter epoch i inputs st) = Err ZeroDivisionError
       /\ learner (snd (train_step config n_iter epoch i inputs st)) =
          variant_update (select_variant config)
            (loss_function est_output (map as_float32 (snd inputs))) (learner st)
       /\ training_stats (snd (train_step config n_iter epoch i inputs st)) =
          training_stats st ++
            [TrainingLoss (item (loss_function est_output
                                   (map as_float32 (snd inputs))))]
       /\ saved (snd (train_step config n_iter epoch i inputs st)) = saved st.
Proof.
  intros Hzero. rewrite forward_pass_run. simpl fst.
  destruct (forward_pass_events_no_save config (grad_enabled st)
              (weights (learner st)) (fst (tokenizer true (fst inputs)))
              (snd (tokenizer true (fst inputs)))) as [Hf _].
  destruct (variant_calls_no_save (select_variant config)) as [Hv _].
  revert Hf. unfold saved.
  train_step_cases config st; intros Hf;
    try (apply Z.eqb_neq in Hprint; apply Z.eqb_neq in Hsteps; lia);
    (split; [reflexivity|]); intros est Hest; inversion Hest; subst est;
    repeat split;
    match goal with
    | |- context [train_log ?c ?n ?e ?j ?a ?b ?d] =>
        destruct (train_log_no_save c n e j a b d) as [Ht _];
        rewrite !filter_app, Hf, Hv, Ht, !app_nil_r; reflexivity
    | _ => rewrite ?filter_app, ?Hf, ?Hv, ?app_nil_r; reflexivity
    end.
Qed.

End CountProps.

(** ** The added properties on the stand-in *)

Lemma validation_too_long_aborts_witness :
  validation (Stub.trainer Stub.short_cfg) 1 0 Stub.initial =
    (Err (SequenceTooLong 11 10),
     set_trace [EvModelEval] (set_training_mode false Stub.initial))
  /\ is_ok (fst (train_epoch (Stub.trainer Stub.short_cfg) 1 0 Stub.initial))
     = false.
Proof.
  destruct (@validation_too_long_aborts Stub.collaborators
              (Stub.trainer Stub.short_cfg) 1 0 _ _ _
              eq_refl eq_refl eq_refl) as [Hval Hepoch].
  split; [exact (Hval Stub.initial) | exact (Hepoch eq_refl Stub.initial)].
Defined.

Lemma getitem_out_of_range_witness :
  (3 < - Z.of_nat (__len__ Stub.dataset) \/ Z.of_nat (__len__ Stub.dataset) <= 3)
  /\ __getitem__ Stub.dataset 3 = Err IndexError.
Proof.
  assert (H : 3 < - Z.of_nat (__len__ Stub.dataset)
              \/ Z.of_nat (__len__ Stub.dataset) <= 3)
    by (right; vm_compute; discriminate).
  split; [exact H|].
  exact (@getitem_out_of_range Stub.collaborators Stub.dataset 3 H).
Defined.

Lemma getitem_negative_index_witness :
  0 <= 2 < Z.of_nat (__len__ Stub.dataset)
  /\ __getitem__ Stub.dataset (2 - Z.of_nat (__len__ Stub.dataset)) =
     __getitem__ Stub.dataset 2.
Proof.
  assert (H : 0 <= 2 < Z.of_nat (__len__ Stub.dataset))
    by (split; [vm_compute; discriminate | reflexivity]).
  split; [exact H|].
  exact (@getitem_negative_index Stub.collaborators Stub.dataset 2 H).
Defined.

Lemma dataloader_batch_local_witness :
  0 < 2
  /\ exists loader,
       DataLoader Stub.dataset 2 = Ok loader
       /\ nth_error (dl_batches loader) 1 =
          Some (items <-? rmap sample_of
                            (firstn 2 (skipn 2 (data Stub.dataset))) ;;
                Ok (default_collate items)).
Proof.
  split; [reflexivity|].
  destruct (@dataloader_batch_local Stub.collaborators Stub.dataset 2 eq_refl)
    as (loader & Hload & Hbatch).
  exists loader. split; [exact Hload|].
  apply (Hbatch 1%nat). vm_compute. apply le_n.
Defined.

Lemma no_validation_without_dataset_witness :
  validation_flag (Stub.trainer_without_validation (Stub.cfg false false)) = false
  /\ exists evs,
       trace (snd (train (Stub.trainer_without_validation (Stub.cfg false false))
                         Stub.initial)) = trace Stub.initial ++ evs
       /\ ~ In EvModelEval evs.
Proof.
  split; [reflexivity|].
  exact (proj1 (@no_validation_without_dataset Stub.collaborators
                  (Stub.trainer_without_validation (Stub.cfg false false))
                  Stub.initial eq_refl)).
Defined.

Lemma train_no_epoch_left_witness :
  effective_batch_size (Stub.trainer Stub.no_epoch_cfg) <> 0
  /\ epochs (config (Stub.trainer Stub.no_epoch_cfg)) <= 0
  /\ fst (train (Stub.trainer Stub.no_epoch_cfg) Stub.initial) = Ok tt
  /\ trace (snd (train (Stub.trainer Stub.no_epoch_cfg) Stub.initial)) =
     trace Stub.initial ++ [EvLog LogStart; EvSetupLogs; EvLoadCheckpoint;
                            EvModelSave; EvLog LogFinished].
Proof.
  assert (HB : effective_batch_size (Stub.trainer Stub.no_epoch_cfg) <> 0)
    by (vm_compute; discriminate).
  assert (HE : epochs (config (Stub.trainer Stub.no_epoch_cfg)) <=
               fst (fst (fst (load_checkpoint (learner Stub.initial)
                                              (training_stats Stub.initial)))))
    by (vm_compute; discriminate).
  split; [exact HB|]. split; [exact HE|].
  destruct (@train_no_epoch_left Stub.collaborators
              (Stub.trainer Stub.no_epoch_cfg) Stub.initial HB HE)
    as (Hok & _ & _ & Htrace).
  split; [exact Hok | exact Htrace].
Defined.

Lemma train_processes_every_batch_witness :
  fst (train (Stub.trainer (Stub.cfg false false)) Stub.initial) = Ok tt
  /\ processed (snd (train (Stub.trainer (Stub.cfg false false)) Stub.initial)) = 4
  /\ validated (snd (train (Stub.trainer (Stub.cfg false false)) Stub.initial)) = 4.
Proof.
  assert (Hfst : fst (train (Stub.trainer (Stub.cfg false false)) Stub.initial)
                 = Ok tt)
    by (vm_compute; reflexivity).
  assert (Hrun : train (Stub.trainer (Stub.cfg false false)) Stub.initial =
                 (Ok tt, snd (train (Stub.trainer (Stub.cfg false false))
                                    Stub.initial)))
    by (destruct (train (Stub.trainer (Stub.cfg false false)) Stub.initial);
        simpl in Hfst; subst; reflexivity).
  destruct (@train_processes_every_batch Stub.collaborators
              (Stub.trainer (Stub.cfg false false)) Stub.initial _ Hrun)
    as [Hprocessed Hvalidated].
  split; [exact Hfst|]. split.
  - rewrite <- (Z.sub_0_r (processed _)). exact Hprocessed.
  - rewrite <- (Z.sub_0_r (validated _)). exact Hvalidated.
Defined.

Lemma zero_period_raises_witness :
  (iteration_per_print Stub.no_print_cfg = 0
   \/ checkpoint_steps Stub.no_print_cfg = 0)
  /\ is_ok (fst (train_step Stub.no_print_cfg 1 0 0 Stub.one_text Stub.initial))
     = false.
Proof.
  assert (H : iteration_per_print Stub.no_print_cfg = 0
              \/ checkpoint_steps Stub.no_print_cfg = 0)
    by (left; reflexivity).
  split; [exact H|].
  exact (proj1 (@zero_period_raises Stub.collaborators Stub.no_print_cfg
                  1 0 0 Stub.one_text Stub.initial H)).
Defined.

Lemma failed_forward_pass_updates_nothing_witness :
  fst (forward_pass Stub.tiny_cfg
         (fst (@tokenizer Stub.collaborators true (fst Stub.one_text)))
         (snd (@tokenizer Stub.collaborators true (fst Stub.one_text))) Stub.initial)
    = Err (SequenceTooLong 4 3)
  /\ set_trace (trace Stub.initial)
       (snd (train_step Stub.tiny_cfg 1 0 0 Stub.one_text Stub.initial))
     = Stub.initial.
Proof.
  assert (H : fst (forward_pass Stub.tiny_cfg
                     (fst (@tokenizer Stub.collaborators true (fst Stub.one_text)))
                     (snd (@tokenizer Stub.collaborators true (fst Stub.one_text))) Stub.initial)
              = Err (SequenceTooLong 4 3)) by reflexivity.
  split; [exact H|].
  exact (proj2 (@failed_forward_pass_updates_nothing Stub.collaborators
                  Stub.tiny_cfg 1 0 0 Stub.one_text Stub.initial _ H)).
Defined.
